(** * Bridge Spy plugin (src/index.tsx): retention buffer, rate sampler,
      filter predicate and selection, embedded from the TypeScript source.

    Conventions of the embedding.
    - A JavaScript string is a [string] holding the bytes of its UTF-8
      encoding (well-formed text, no lone surrogate), so that the length
      of [new TextEncoder().encode(s)] is [String.length s].
    - A JavaScript number that the plugin handles as a count or as
      epoch-milliseconds is a [Z]; [Math.ceil (n / 5)] on a count is the
      integer ceiling, and the quotient [bytes / 5] is the exact rational.
    - An exception is a [Throw] in the [result] type; code that reads the
      wall clock runs in the monad [M], which counts the calls of
      [Date.now ()] and answers the k-th call with [clock k]. *)

From Stdlib Require Import ZArith QArith Qround Ascii String List Bool Lia DecimalString.
From stdpp Require Import base list.
Import ListNotations.

Local Open Scope string_scope.
Local Open Scope Z_scope.

Set Warnings "-register-all".

(** ** Exceptions *)

Inductive exn : Type :=
| TypeError.

Inductive result (A : Type) : Type :=
| Ok (a : A)
| Throw (e : exn).

Arguments Ok {A} a.
Arguments Throw {A} e.

Definition rbind {A B : Type} (r : result A) (f : A -> result B) : result B :=
  match r with
  | Ok a => f a
  | Throw e => Throw e
  end.

Notation "'try!' x ':=' r 'in' k" := (rbind r (fun x => k))
  (at level 10, x name, r at level 100, k at level 200).

(** ** JavaScript values, as far as [JSON.stringify] tells them apart.

    [JObj] lists the own enumerable properties in enumeration order.
    [JBack n] stands for a property or element whose value is the n-th
    enclosing object or array (0 is the innermost one): a finite tree with
    such back edges is how a cyclic structure is written down, for instance
    [a = {}; a.self = a] is [JObj [("self", JBack 0)]]. *)

Inductive jsval : Type :=
| JUndefined
| JNull
| JBool (b : bool)
| JNum (z : Z)
| JBigInt (z : Z)
| JStr (s : string)
| JArr (elems : list jsval)
| JObj (props : list (string * jsval))
| JBack (depth : nat).

(** [Number.prototype.toString] on an integer-valued number of magnitude
    up to 2^53, the range in which a JavaScript number holds every integer
    exactly and prints its decimal digits (epoch-milliseconds and counts lie
    in it); beyond it the source prints rounded digits or an exponent. *)
Definition Number_toString (z : Z) : string :=
  NilZero.string_of_int (Z.to_int z).

Definition dquote : ascii := "034"%char.
Definition backslash : ascii := "092"%char.

Definition hex_digit (n : N) : ascii :=
  match String.get (N.to_nat n) "0123456789abcdef" with
  | Some c => c
  | None => "0"%char
  end.

(** One step of QuoteJSONString: the two-character escapes, [\u00xx] for
    the other control characters, every other byte as it is. *)
Definition quote_char (c : ascii) : string :=
  let n := N_of_ascii c in
  if (n =? 34)%N then String backslash (String dquote EmptyString)
  else if (n =? 92)%N then String backslash (String backslash EmptyString)
  else if (n =? 8)%N then String backslash "b"
  else if (n =? 12)%N then String backslash "f"
  else if (n =? 10)%N then String backslash "n"
  else if (n =? 13)%N then String backslash "r"
  else if (n =? 9)%N then String backslash "t"
  else if (n <? 32)%N then
    String backslash
      (String "u" (String "0" (String "0"
         (String (hex_digit (n / 16)) (String (hex_digit (n mod 16)) EmptyString)))))
  else String c EmptyString.

Fixpoint quote_chars (s : string) : string :=
  match s with
  | EmptyString => EmptyString
  | String c s' => quote_char c ++ quote_chars s'
  end.

Definition QuoteJSONString (s : string) : string :=
  String dquote (quote_chars s ++ String dquote EmptyString).

(** [Array.prototype.join (",")] on already serialized parts. *)
Fixpoint join_comma (parts : list string) : string :=
  match parts with
  | [] => EmptyString
  | [p] => p
  | p :: ps => p ++ "," ++ join_comma ps
  end.

(** SerializeJSONProperty of ECMA-262, without replacer, indent or
    [toJSON]: [Ok None] is the result [undefined], a [JBigInt] and a value
    already on the stack of enclosing objects throw a TypeError. *)
Fixpoint SerializeJSONProperty (v : jsval) : result (option string) :=
  match v with
  | JUndefined => Ok None
  | JNull => Ok (Some "null")
  | JBool true => Ok (Some "true")
  | JBool false => Ok (Some "false")
  | JNum z => Ok (Some (Number_toString z))
  | JBigInt _ => Throw TypeError
  | JStr s => Ok (Some (QuoteJSONString s))
  | JArr elems =>
      let fix SerializeJSONArray (vs : list jsval) : result (list string) :=
        match vs with
        | [] => Ok []
        | e :: vs' =>
            try! o := SerializeJSONProperty e in
            try! rest := SerializeJSONArray vs' in
            Ok (match o with Some s => s | None => "null" end :: rest)
        end in
      try! parts := SerializeJSONArray elems in
      Ok (Some ("[" ++ join_comma parts ++ "]"))
  | JObj props =>
      let fix SerializeJSONObject (ps : list (string * jsval)) : result (list string) :=
        match ps with
        | [] => Ok []
        | (k, e) :: ps' =>
            try! o := SerializeJSONProperty e in
            try! rest := SerializeJSONObject ps' in
            Ok (match o with
                | Some s => (QuoteJSONString k ++ ":" ++ s) :: rest
                | None => rest
                end)
        end in
      try! parts := SerializeJSONObject props in
      Ok (Some ("{" ++ join_comma parts ++ "}"))
  | JBack _ => Throw TypeError
  end.

Definition JSON_stringify (v : jsval) : result (option string) :=
  SerializeJSONProperty v.

(** [new TextEncoder().encode(str).length]; [encode(undefined)] encodes the
    empty string. *)
Definition TextEncoder_encode_length (str : option string) : nat :=
  match str with
  | Some s => String.length s
  | None => 0%nat
  end.

(** ** Data model (the types [DataRow], [MessageRow], [State],
    [PersistedState] of the source, and flipper's [Filter]) *)

Definition Id : Type := string.

Inductive Method : Type :=
| MStr (s : string)
| MNum (n : Z).

(** [module] is [None] when the event carries no module (the source guards
    it with [??]); [args] is whatever the bridge delivered. *)
Record DataRow : Type := {
  id : Id;
  time : Z;
  type : string;
  module : option string;
  method : Method;
  args : jsval
}.

(** A cell [{ value, isFilterable }]. [value] is [None] for [undefined];
    [isFilterable] is [true] when the cell has the property (its only
    value in the source is [true]) and [false] when it has none, as the
    [index] and [time] cells. *)
Record Cell : Type := {
  value : option string;
  isFilterable : bool
}.

Record Columns : Type := {
  col_index : Cell;
  col_time : Cell;
  col_type : Cell;
  col_module : Cell;
  col_method : Cell;
  col_args : Cell
}.

Record MessageRow : Type := {
  columns : Columns;
  timestamp : Z;
  payload : DataRow;
  key : string
}.

Record Filter : Type := {
  filter_key : string;
  filter_value : string
}.

Record State : Type := {
  selectedId : option string;
  filters : list Filter;
  messagesPerSecond : Z;
  bandwidthPerSecond : Q
}.

Record PersistedState : Type := {
  messageRows : list MessageRow
}.

(** The payload of a bridge event: one record or a batch. *)
Inductive Payload : Type :=
| One (r : DataRow)
| Many (rs : list DataRow).

Definition defaultPersistedState : PersistedState :=
  {| messageRows := [] |}.

Definition initialState : State :=
  {| selectedId := None; filters := []; messagesPerSecond := 0;
     bandwidthPerSecond := 0%Q |}.

(** ** Property lookup [row.columns[k]] *)

(** What [obj[k]] evaluates to on a [columns] object: one of its six
    cells, a member inherited from [Object.prototype] (a function, or the
    prototype itself for [__proto__]), or [undefined]. *)
Inductive Property : Type :=
| OwnCell (c : Cell)
| Inherited
| Undefined.

Definition Object_prototype_keys : list string :=
  [ "constructor"; "__defineGetter__"; "__defineSetter__"; "hasOwnProperty";
    "__lookupGetter__"; "__lookupSetter__"; "isPrototypeOf";
    "propertyIsEnumerable"; "toString"; "valueOf"; "__proto__";
    "toLocaleString" ].

Definition get_column (cols : Columns) (k : string) : Property :=
  if String.eqb k "index" then OwnCell (col_index cols)
  else if String.eqb k "time" then OwnCell (col_time cols)
  else if String.eqb k "type" then OwnCell (col_type cols)
  else if String.eqb k "module" then OwnCell (col_module cols)
  else if String.eqb k "method" then OwnCell (col_method cols)
  else if String.eqb k "args" then OwnCell (col_args cols)
  else if existsb (String.eqb k) Object_prototype_keys then Inherited
  else Undefined.

(** [p.value]: reading a property of [undefined] throws. *)
Definition get_value (p : Property) : result (option string) :=
  match p with
  | OwnCell c => Ok (value c)
  | Inherited => Ok None
  | Undefined => Throw TypeError
  end.

(** [v === s] for a string [s]; [undefined] equals no string. *)
Definition strict_eq (v : option string) (s : string) : bool :=
  match v with
  | Some t => String.eqb t s
  | None => false
  end.

(** ** Rows as JavaScript objects, in the property order in which
    [buildRow] writes them.
    A record is written with the six members that [DataRow] declares, in
    that order; [module] is left out when the record has none. *)

Definition js_of_option (o : option string) : jsval :=
  match o with
  | Some s => JStr s
  | None => JUndefined
  end.

Definition js_of_Method (m : Method) : jsval :=
  match m with
  | MStr s => JStr s
  | MNum n => JNum n
  end.

Definition js_of_DataRow (r : DataRow) : jsval :=
  JObj [ ("id", JStr (id r)); ("time", JNum (time r)); ("type", JStr (type r));
         ("module", js_of_option (module r)); ("method", js_of_Method (method r));
         ("args", args r) ].

Definition js_of_Cell (c : Cell) : jsval :=
  JObj (("value", js_of_option (value c))
        :: if isFilterable c then [("isFilterable", JBool true)] else []).

Definition js_of_Columns (cols : Columns) : jsval :=
  JObj [ ("index", js_of_Cell (col_index cols)); ("time", js_of_Cell (col_time cols));
         ("type", js_of_Cell (col_type cols)); ("module", js_of_Cell (col_module cols));
         ("method", js_of_Cell (col_method cols)); ("args", js_of_Cell (col_args cols)) ].

Definition js_of_MessageRow (row : MessageRow) : jsval :=
  JObj [ ("columns", js_of_Columns (columns row)); ("key", JStr (key row));
         ("payload", js_of_DataRow (payload row)); ("timestamp", JNum (timestamp row)) ].

Definition js_of_rows (rows : list MessageRow) : jsval :=
  JArr (map js_of_MessageRow rows).

(** ** The clock monad *)

(** A computation that may call [Date.now ()] and may throw: it starts
    with the number of clock readings taken so far and returns its result
    with the new count. *)
Definition M (A : Type) : Type := nat -> result (A * nat).

Definition ret {A : Type} (a : A) : M A := fun k => Ok (a, k).

Definition bind {A B : Type} (m : M A) (f : A -> M B) : M B :=
  fun k =>
    match m k with
    | Ok (a, k') => f a k'
    | Throw e => Throw e
    end.

Definition lift {A : Type} (r : result A) : M A :=
  fun k =>
    match r with
    | Ok a => Ok (a, k)
    | Throw e => Throw e
    end.

Notation "'do!' x ':=' m 'in' k" := (bind m (fun x => k))
  (at level 10, x name, m at level 100, k at level 200).

(** [Array.prototype.filter] with a callback that runs in [M]: one call
    per element, in index order; the callback's result is taken by its
    truthiness. *)
Fixpoint Array_filter {A : Type} (callback : A -> M bool) (xs : list A) : M (list A) :=
  match xs with
  | [] => ret []
  | x :: xs' =>
      do! b := callback x in
      do! kept := Array_filter callback xs' in
      ret (if b then x :: kept else kept)
  end.

(** [Array.prototype.map] with a callback that may throw. *)
Fixpoint Array_map {A B : Type} (callback : A -> result B) (xs : list A) : result (list B) :=
  match xs with
  | [] => Ok []
  | x :: xs' =>
      try! y := callback x in
      try! ys := Array_map callback xs' in
      Ok (y :: ys)
  end.

(** [Math.ceil] on the quotient of two integers. *)
Definition Math_ceil (x : Q) : Z := Qceiling x.

Section Plugin.

(** [new Date(t).toLocaleString(undefined, {...})] with the options of
    the source: its result depends on the locale of the host. *)
Variable toLocaleString : Z -> string.

(** [clock k] is what the k-th call of [Date.now ()] returns. *)
Variable clock : nat -> Z.

Definition Date_now : M Z := fun k => Ok (clock k, S k).

Definition Method_toString (m : Method) : string :=
  match m with
  | MStr s => s
  | MNum n => Number_toString n
  end.

(** The arrow function that [buildRow] maps over the batch. *)
Definition buildRow_one (r : DataRow) : result MessageRow :=
  try! a := JSON_stringify (args r) in
  Ok {| columns :=
          {| col_index := {| value := Some (id r); isFilterable := false |};
             col_time := {| value := Some (toLocaleString (time r)); isFilterable := false |};
             col_type := {| value := Some (type r); isFilterable := true |};
             col_module :=
               {| value := Some (match module r with Some m => m | None => "" end);
                  isFilterable := true |};
             col_method := {| value := Some (Method_toString (method r)); isFilterable := true |};
             col_args := {| value := a; isFilterable := true |} |};
        key := id r;
        payload := r;
        timestamp := time r |}.

Definition buildRow (row : Payload) : result (list MessageRow) :=
  let row := match row with One r => [r] | Many rs => rs end in
  Array_map buildRow_one row.

(** The callback of the eviction filter. *)
Definition within_retention (row : MessageRow) : M bool :=
  do! now := Date_now in
  ret (now - timestamp row <? 5 * 60 * 1000).

Definition persistedStateReducer
    (persistedState : PersistedState) (method : string) (payload : Payload)
    : M PersistedState :=
  if String.eqb method "newRow" then
    do! newRows := lift (buildRow payload) in
    do! kept := Array_filter within_retention (messageRows persistedState ++ newRows) in
    ret {| messageRows := kept |}
  else ret persistedState.

(** [row.columns[filter.key].value === filter.value] *)
Definition filter_equality (filter : Filter) (row : MessageRow) : result bool :=
  try! v := get_value (get_column (columns row) (filter_key filter)) in
  Ok (strict_eq v (filter_value filter)).

(** The [for ... of] loop of the filter callback: its body returns on the
    first iteration; a loop over no filter falls through, and the
    callback's [undefined] counts as [false]. *)
Definition first_filter_result (fs : list Filter) (row : MessageRow) : result bool :=
  match fs with
  | filter :: _ => filter_equality filter row
  | [] => Ok false
  end.

(** The callback of [filterMessages]. *)
Definition filterMessages_callback (fs : list Filter) (row : MessageRow) : M bool :=
  do! now := Date_now in
  if 5 * 1000 <? now - timestamp row then ret false
  else if (length fs =? 0)%nat then ret true
  else lift (first_filter_result fs row).

Definition filterMessages (persistedState : PersistedState) (state : State)
    : M (list MessageRow) :=
  Array_filter (filterMessages_callback (filters state)) (messageRows persistedState).

Definition getMessagesPerSecond (persistedState : PersistedState) (state : State) : M Z :=
  do! filteredSecondMessages := filterMessages persistedState state in
  ret (Math_ceil (Z.of_nat (length filteredSecondMessages) # 5)).

Definition getSizeInBytes (obj : jsval) : result nat :=
  match obj with
  | JStr str => Ok (TextEncoder_encode_length (Some str))
  | _ =>
      try! str := JSON_stringify obj in
      Ok (TextEncoder_encode_length str)
  end.

Definition getBandwidthPerSecond (persistedState : PersistedState) (state : State) : M Q :=
  do! filteredSecondMessages := filterMessages persistedState state in
  do! bytes := lift (getSizeInBytes (js_of_rows filteredSecondMessages)) in
  ret (Z.of_nat bytes # 5).

(** The callback that [componentDidMount] hands to [setInterval]. *)
Definition tick (persistedState : PersistedState) (state : State) : M State :=
  do! mps := getMessagesPerSecond persistedState state in
  do! bps := getBandwidthPerSecond persistedState state in
  ret {| selectedId := selectedId state; filters := filters state;
         messagesPerSecond := mps; bandwidthPerSecond := bps |}.

(** A sequence of [newRow] events, delivered one after the other; the
    first exception ends the run. *)
Fixpoint appends (persistedState : PersistedState) (payloads : list Payload)
    : M PersistedState :=
  match payloads with
  | [] => ret persistedState
  | p :: ps =>
      do! next := persistedStateReducer persistedState "newRow" p in
      appends next ps
  end.

End Plugin.

(** ** Handlers that neither read the clock nor throw *)

Definition onFilterChange (fs : list Filter) (state : State) : State :=
  {| selectedId := selectedId state; filters := fs;
     messagesPerSecond := 0; bandwidthPerSecond := 0%Q |}.

Definition onRowHighlighted (keys : list string) (state : State) : State :=
  if (0 <? length keys)%nat then
    {| selectedId := head keys; filters := filters state;
       messagesPerSecond := messagesPerSecond state;
       bandwidthPerSecond := bandwidthPerSecond state |}
  else state.

(** What [renderSidebar] returns: the placeholder, or the payload panel
    of [renderExtra]. *)
Inductive Sidebar : Type :=
| Placeholder
| Extra (extra : DataRow).

Definition renderSidebar (persistedState : PersistedState) (state : State) : Sidebar :=
  match selectedId state with
  | Some sid =>
      match List.find (fun row => String.eqb (key row) sid) (messageRows persistedState) with
      | Some message => Extra (payload message)
      | None => Placeholder
      end
  | None => Placeholder
  end.

(** [clear]: [setState] on the component and [setPersistedState] on the
    host's store. *)
Definition clear (persistedState : PersistedState) (state : State) : PersistedState * State :=
  ({| messageRows := [] |},
   {| selectedId := None; filters := filters state;
      messagesPerSecond := messagesPerSecond state;
      bandwidthPerSecond := bandwidthPerSecond state |}).

(** ** Definitions that the statements below use *)

(** The two local loops of [SerializeJSONProperty], named. *)
Definition SerializeJSONArray (vs : list jsval) : result (list string) :=
  Array_map (fun e => try! o := SerializeJSONProperty e in
                      Ok (match o with Some s => s | None => "null" end)) vs.

Fixpoint SerializeJSONObject (ps : list (string * jsval)) : result (list string) :=
  match ps with
  | [] => Ok []
  | (k, e) :: ps' =>
      try! o := SerializeJSONProperty e in
      try! rest := SerializeJSONObject ps' in
      Ok (match o with
          | Some s => (QuoteJSONString k ++ ":" ++ s) :: rest
          | None => rest
          end)
  end.

(** The eviction pass of the reducer, written without the monad: the row
    at position [j] of [rows] is compared with the clock reading [k + j]. *)
Fixpoint evict (clock : nat -> Z) (k : nat) (rows : list MessageRow) : list MessageRow :=
  match rows with
  | [] => []
  | row :: rows' =>
      if clock k - timestamp row <? 5 * 60 * 1000
      then row :: evict clock (S k) rows'
      else evict clock (S k) rows'
  end.

Definition events (p : Payload) : list DataRow :=
  match p with
  | One r => [r]
  | Many rs => rs
  end.

(** No BigInt and no back edge anywhere in the value. *)
Fixpoint serializable (v : jsval) : bool :=
  match v with
  | JBigInt _ | JBack _ => false
  | JArr elems => forallb serializable elems
  | JObj props => forallb (fun p => let '(_, e) := p in serializable e) props
  | _ => true
  end.

(** Membership of the 5-second sample window at [now]. *)
Definition in_sample_window (now : Z) (row : MessageRow) : bool :=
  now - timestamp row <=? 5 * 1000.

(** A row passes a filter set when the set is empty or the callback's loop
    answers [true] for it. *)
Definition passes_filters (fs : list Filter) (row : MessageRow) : bool :=
  match fs with
  | [] => true
  | _ :: _ =>
      match first_filter_result fs row with
      | Ok b => b
      | Throw _ => false
      end
  end.

Definition matched_rows (now : Z) (fs : list Filter) (rows : list MessageRow)
    : list MessageRow :=
  List.filter (fun row => in_sample_window now row && passes_filters fs row) rows.

Definition matched_count (now : Z) (fs : list Filter) (rows : list MessageRow) : Z :=
  Z.of_nat (length (matched_rows now fs rows)).

(** The cell texts of a row by column name, as the table shows them. *)
Definition cells (row : MessageRow) : list (string * option string) :=
  [ ("index", value (col_index (columns row)));
    ("time", value (col_time (columns row)));
    ("type", value (col_type (columns row)));
    ("module", value (col_module (columns row)));
    ("method", value (col_method (columns row)));
    ("args", value (col_args (columns row))) ].

Fixpoint cell_of (k : string) (cs : list (string * option string)) : option string :=
  match cs with
  | [] => None
  | (name, text) :: cs' => if String.eqb k name then text else cell_of k cs'
  end.

(** [matches row fs] in the words of the specification, written without
    the code's lookup: every row matches the empty filter set; otherwise
    the row matches when its cell in the column of the first filter holds
    the filter's value, and a row without such a cell does not match. *)
Definition matches (row : MessageRow) (fs : list Filter) : bool :=
  match fs with
  | [] => true
  | filter :: _ =>
      match cell_of (filter_key filter) (cells row) with
      | Some text => String.eqb text (filter_value filter)
      | None => false
      end
  end.

(** The number of rows inside the sample window at [now] that match. *)
Definition sample_count (now : Z) (fs : list Filter) (rows : list MessageRow) : Z :=
  Z.of_nat (length (List.filter
                      (fun row => (now - timestamp row <=? 5 * 1000) && matches row fs)
                      rows)).

(** A row whose payload [JSON.stringify] accepts, as every row that
    [buildRow] has produced. *)
Definition row_serializable (row : MessageRow) : bool :=
  serializable (args (payload row)).

(** The figure that the specification words for the bandwidth: the sizes
    of the rows' payloads, each taken by [getSizeInBytes], added up. *)
Fixpoint payloads_size (rows : list MessageRow) : result nat :=
  match rows with
  | [] => Ok 0%nat
  | row :: rows' =>
      try! b := getSizeInBytes (js_of_DataRow (payload row)) in
      try! rest := payloads_size rows' in
      Ok (b + rest)%nat
  end.

Definition column_keys : list string :=
  [ "index"; "time"; "type"; "module"; "method"; "args" ].

Definition is_column (k : string) : bool :=
  existsb (String.eqb k) column_keys.

(** [k] names a property of every [columns] object, own or inherited. *)
Definition key_resolves (k : string) : bool :=
  is_column k || existsb (String.eqb k) Object_prototype_keys.

Definition filters_resolve (fs : list Filter) : bool :=
  match fs with
  | [] => true
  | filter :: _ => key_resolves (filter_key filter)
  end.


(** ** Sample data *)

Definition sample_locale (t : Z) : string := "01/01/70, 00:00:00.000".

(** A clock that stands still. *)
Definition steady (now : Z) : nat -> Z := fun _ => now.

(** A clock given by its first readings, steady afterwards. *)
Definition readings (ts : list Z) (last : Z) : nat -> Z := fun k => nth k ts last.

Definition event (i : string) (t : Z) (a : jsval) : DataRow :=
  {| id := i; time := t; type := "in"; module := Some "UIManager";
     method := MStr "createView"; args := a |}.

Definition cyclic_args : jsval := JObj [("self", JBack 0)].

Definition row_of (r : DataRow) (a : option string) : MessageRow :=
  {| columns :=
       {| col_index := {| value := Some (id r); isFilterable := false |};
          col_time := {| value := Some (sample_locale (time r)); isFilterable := false |};
          col_type := {| value := Some (type r); isFilterable := true |};
          col_module := {| value := module r; isFilterable := true |};
          col_method := {| value := Some (Method_toString (method r)); isFilterable := true |};
          col_args := {| value := a; isFilterable := true |} |};
     key := id r;
     payload := r;
     timestamp := time r |}.

Definition sample_row (i : string) (t : Z) : MessageRow :=
  row_of (event i t JNull) (Some "null").

(** Three appends over more than five minutes, and the clock readings
    that their eviction passes take (1, 3 and 4 rows). *)
Definition earlier_appends : list Payload :=
  [ One (event "1" 0 JNull);
    Many [event "2" 250000 JNull; event "3" 250001 (JStr "x")] ].

Definition last_append : Payload := One (event "4" 400000 (JObj [("tag", JNum 12)])).

Definition spanning_clock : nat -> Z :=
  readings [1000; 260000; 260000; 260001; 410000; 410000; 410001] 410002.

(** Twelve rows, ten of them inside the sample window at time 10000 (the
    one stamped 5000 lies on its edge). *)
Definition busy_buffer : PersistedState :=
  {| messageRows :=
       [ sample_row "a" 0; sample_row "b" 4999;
         sample_row "c" 5000; sample_row "d" 5001; sample_row "e" 6000;
         sample_row "f" 7000; sample_row "g" 8000; sample_row "h" 9000;
         sample_row "i" 9500; sample_row "j" 9999; sample_row "k" 10000;
         sample_row "l" 10000 ] |}.

(** Rows of a second kind, as [buildRow] makes them from an outgoing call. *)
Definition sample_row_out (i : string) (t : Z) : MessageRow :=
  row_of {| id := i; time := t; type := "out"; module := Some "Timing";
            method := MNum 3; args := JNull |} (Some "null").

(** Thirteen rows: one outside the sample window at time 10000, then seven
    incoming and five outgoing calls inside it. *)
Definition mixed_buffer : PersistedState :=
  {| messageRows :=
       [ sample_row "a" 0;
         sample_row "b" 5000; sample_row_out "c" 5001; sample_row "d" 6000;
         sample_row_out "e" 6500; sample_row "f" 7000; sample_row "g" 8000;
         sample_row_out "h" 8500; sample_row "i" 9000; sample_row_out "j" 9500;
         sample_row "k" 9999; sample_row_out "l" 10000; sample_row "m" 10000 ] |}.

(** A clock that shows [now] for its first [n] readings and [later] from
    then on. *)
Definition steady_until (n : nat) (now later : Z) : nat -> Z :=
  fun k => if (k <? n)%nat then now else later.

Definition by_type (v : string) : Filter := {| filter_key := "type"; filter_value := v |}.
Definition by_module (v : string) : Filter := {| filter_key := "module"; filter_value := v |}.
Definition by_unknown (v : string) : Filter := {| filter_key := "sender"; filter_value := v |}.

(** ** The rest of the component: header texts *)

(** The text of [mshPerSecText] in [render]:
    [`${ Math.ceil(this.state.messagesPerSecond / 5) } msg/s`]. *)
Definition mshPerSecText (state : State) : string :=
  Number_toString (Math_ceil (messagesPerSecond state # 5)) ++ " msg/s".

Section Render.

(** Lines 357-361 of [formatBytes]: the unit is chosen with [Math.log] and
    the figure printed with [toFixed] and [parseFloat], all on floating
    point numbers; the embedding takes their result as given. *)
Variable formatPositive : Q -> Z -> string.

Definition formatBytes (bytes : Q) (fractionDigits : Z) : string :=
  if Qle_bool bytes 0 then "0 B/s" else formatPositive bytes fractionDigits.

(** The text of [bandwidthPerSecText] in [render]; [fractionDigits] takes
    its default. *)
Definition bandwidthPerSecText (state : State) : string :=
  formatBytes (bandwidthPerSecond state) 2.

End Render.

(** The state part of a run, without the count of clock readings. *)
Definition state_of {A : Type} (r : result (A * nat)) : result A :=
  match r with
  | Ok (a, _) => Ok a
  | Throw e => Throw e
  end.

(** The eviction test at a given time. *)
Definition fresh_at (now : Z) (row : MessageRow) : bool :=
  now - timestamp row <? 5 * 60 * 1000.

Definition batch_serializable (p : Payload) : bool :=
  forallb (fun r => serializable (args r)) (events p).

(** * Properties *)

(** ** The monad and the two array passes *)

Lemma Array_filter_sublist {A : Type} (callback : A -> M bool) (xs kept : list A) (k k' : nat) :
  Array_filter callback xs k = Ok (kept, k') -> sublist kept xs.
Proof.
  revert kept k k'. induction xs as [|x xs IH]; intros kept k k' H; cbn in H.
  - inversion H. constructor.
  - unfold bind in H. destruct (callback x k) as [[b k1]|e]; [|discriminate].
    fold (@Array_filter A) in H.
    destruct (Array_filter callback xs k1) as [[ys k2]|e] eqn:E; [|discriminate].
    cbn in H. inversion H; subst. specialize (IH _ _ _ E).
    destruct b; [apply sublist_skip | apply sublist_cons]; exact IH.
Qed.

Lemma bind_run {A B : Type} (m : M A) (f : A -> M B) (k : nat) :
  bind m f k = match m k with
               | Ok (a, k') => f a k'
               | Throw e => Throw e
               end.
Proof. reflexivity. Qed.

Lemma within_retention_run (clock : nat -> Z) (row : MessageRow) (k : nat) :
  within_retention clock row k = Ok (clock k - timestamp row <? 5 * 60 * 1000, S k).
Proof. reflexivity. Qed.

Lemma Array_filter_evict (clock : nat -> Z) (rows : list MessageRow) (k : nat) :
  Array_filter (within_retention clock) rows k
  = Ok (evict clock k rows, (k + length rows)%nat).
Proof.
  revert k. induction rows as [|row rows IH]; intros k; cbn [Array_filter evict length].
  - unfold ret. do 2 f_equal. lia.
  - rewrite bind_run, within_retention_run, bind_run, IH. unfold ret.
    replace (S k + length rows)%nat with (k + S (length rows))%nat by lia.
    destruct (clock k - timestamp row <? 5 * 60 * 1000); reflexivity.
Qed.

Lemma evict_sublist (clock : nat -> Z) (k : nat) (rows : list MessageRow) :
  sublist (evict clock k rows) rows.
Proof.
  revert k. induction rows as [|row rows IH]; intros k; cbn.
  - constructor.
  - destruct (_ <? _); [apply sublist_skip | apply sublist_cons]; apply IH.
Qed.

Lemma evict_bound (clock : nat -> Z) (now : Z) (rows : list MessageRow) (k : nat) :
  (forall i, (k <= i < k + length rows)%nat -> now <= clock i) ->
  Forall (fun row => now - timestamp row < 5 * 60 * 1000) (evict clock k rows).
Proof.
  revert k. induction rows as [|row rows IH]; intros k Hclk; cbn.
  - constructor.
  - assert (Htail : Forall (fun row => now - timestamp row < 5 * 60 * 1000)
                      (evict clock (S k) rows)).
    { apply IH. intros i Hi. apply Hclk. cbn. lia. }
    destruct (Z.ltb_spec (clock k - timestamp row) (5 * 60 * 1000)) as [E|E];
      [|exact Htail].
    constructor; [|exact Htail].
    specialize (Hclk k). cbn [length] in Hclk. lia.
Qed.

Lemma Array_map_length {A B : Type} (f : A -> result B) (xs : list A) (ys : list B) :
  Array_map f xs = Ok ys -> length ys = length xs.
Proof.
  revert ys. induction xs as [|x xs IH]; intros ys H; cbn in H.
  - inversion H. reflexivity.
  - destruct (f x) as [y|e]; [|discriminate]. cbn in H.
    destruct (Array_map f xs) as [ys'|e]; [|discriminate]. cbn in H.
    inversion H. cbn. f_equal. apply IH. reflexivity.
Qed.

(** The reducer on a ["newRow"] event, step by step. *)
Lemma persistedStateReducer_newRow toLocaleString clock ps payload k :
  persistedStateReducer toLocaleString clock ps "newRow" payload k
  = match buildRow toLocaleString payload with
    | Ok newRows =>
        Ok ({| messageRows := evict clock k (messageRows ps ++ newRows) |},
            (k + length (messageRows ps ++ newRows))%nat)
    | Throw e => Throw e
    end.
Proof.
  unfold persistedStateReducer. cbn [String.eqb Ascii.eqb Bool.eqb]. unfold bind, lift.
  destruct (buildRow toLocaleString payload) as [newRows|e]; [|reflexivity].
  rewrite Array_filter_evict. reflexivity.
Qed.

Lemma buildRow_one_payload toLocaleString r row :
  buildRow_one toLocaleString r = Ok row ->
  payload row = r /\ key row = id r /\ timestamp row = time r
  /\ Ok (value (col_args (columns row))) = JSON_stringify (args r).
Proof.
  unfold buildRow_one. destruct (JSON_stringify (args r)) as [a|e]; cbn; [|discriminate].
  intros H. inversion H. cbn. auto.
Qed.

Lemma buildRow_payloads toLocaleString p rows :
  buildRow toLocaleString p = Ok rows -> map payload rows = events p.
Proof.
  unfold buildRow. fold (events p). generalize (events p) as rs. clear p.
  intros rs. revert rows. induction rs as [|r rs IH]; intros rows H; cbn in H.
  - inversion H. reflexivity.
  - destruct (buildRow_one toLocaleString r) as [row|e] eqn:E; [|discriminate]. cbn in H.
    destruct (Array_map (buildRow_one toLocaleString) rs) as [rows'|e]; [|discriminate].
    cbn in H. inversion H. cbn. f_equal.
    + apply (buildRow_one_payload toLocaleString r row E).
    + apply IH. reflexivity.
Qed.

Lemma appends_cons toLocaleString clock ps p rest k :
  appends toLocaleString clock ps (p :: rest) k
  = match persistedStateReducer toLocaleString clock ps "newRow" p k with
    | Ok (next, k') => appends toLocaleString clock next rest k'
    | Throw e => Throw e
    end.
Proof. reflexivity. Qed.

Lemma appends_snoc toLocaleString clock earlier : forall ps p k,
  appends toLocaleString clock ps (earlier ++ [p]) k
  = match appends toLocaleString clock ps earlier k with
    | Ok (st, k') => persistedStateReducer toLocaleString clock st "newRow" p k'
    | Throw e => Throw e
    end.
Proof.
  induction earlier as [|q earlier IH]; intros ps p k.
  - cbn [app]. rewrite appends_cons. cbn [appends]. unfold ret.
    destruct (persistedStateReducer _ _ _ _ _ _) as [[next k']|e]; reflexivity.
  - cbn [app]. rewrite !appends_cons.
    destruct (persistedStateReducer _ _ _ _ q _) as [[next k']|e]; [apply IH | reflexivity].
Qed.

(** ** Retention buffer *)

(** The sample rows are rows that [buildRow] produces. *)
Lemma sample_row_is_built (i : string) (t : Z) :
  buildRow sample_locale (One (event i t JNull)) = Ok [sample_row i t].
Proof. reflexivity. Qed.

(** C7. Whatever the persisted state and the payload, the reducer called
    with a method name other than ["newRow"] returns the persisted state
    itself; it reads no clock (the count of readings is unchanged) and
    throws nothing. *)
Theorem reducer_ignores_other_methods
    (toLocaleString : Z -> string) (clock : nat -> Z)
    (ps : PersistedState) (method : string) (payload : Payload) (k : nat) :
  method <> "newRow" ->
  persistedStateReducer toLocaleString clock ps method payload k = Ok (ps, k).
Proof.
  intros Hne. unfold persistedStateReducer.
  destruct (String.eqb_spec method "newRow") as [Heq|_]; [contradiction | reflexivity].
Qed.

Lemma reducer_ignores_other_methods_witness :
  "clear" <> "newRow"
  /\ persistedStateReducer sample_locale (steady 0)
       {| messageRows := [sample_row "7" 0] |} "clear"
       (One (event "8" 1 cyclic_args)) 3%nat
     = Ok ({| messageRows := [sample_row "7" 0] |}, 3%nat).
Proof.
  split; [discriminate|].
  apply (reducer_ignores_other_methods sample_locale (steady 0)
           {| messageRows := [sample_row "7" 0] |} "clear"
           (One (event "8" 1 cyclic_args)) 3%nat).
  discriminate.
Defined.

(** C2. Take any sequence of appends and its last one; let [now] be a
    wall-clock time of that append, no later than the readings of
    [Date.now ()] that the append takes (a clock standing still during the
    call reads [now] itself). Immediately after the append, every row kept
    in [messageRows] satisfies [now - row.timestamp < 5 minutes]: a row at
    or beyond the bound has been removed by the append itself. *)
Theorem retained_rows_within_five_minutes
    (toLocaleString : Z -> string) (clock : nat -> Z)
    (ps0 : PersistedState) (earlier : list Payload) (payload : Payload)
    (k0 k1 k2 : nat) (st st' : PersistedState) (now : Z) :
  appends toLocaleString clock ps0 earlier k0 = Ok (st, k1) ->
  persistedStateReducer toLocaleString clock st "newRow" payload k1 = Ok (st', k2) ->
  (forall i, (k1 <= i < k2)%nat -> now <= clock i) ->
  appends toLocaleString clock ps0 (earlier ++ [payload]) k0 = Ok (st', k2)
  /\ Forall (fun row => now - timestamp row < 5 * 60 * 1000) (messageRows st').
Proof.
  intros Hrun Hlast Hclk. split.
  - rewrite appends_snoc, Hrun. exact Hlast.
  - rewrite persistedStateReducer_newRow in Hlast.
    destruct (buildRow toLocaleString payload) as [newRows|e]; [|discriminate].
    inversion Hlast; subst. cbn [messageRows]. apply evict_bound. exact Hclk.
Qed.

Lemma retained_rows_within_five_minutes_witness :
  exists st',
    appends sample_locale spanning_clock defaultPersistedState
      (earlier_appends ++ [last_append]) 0%nat = Ok (st', 8%nat)
    /\ map key (messageRows st') = ["2"; "3"; "4"]
    /\ Forall (fun row => 410000 - timestamp row < 5 * 60 * 1000) (messageRows st').
Proof.
  edestruct (retained_rows_within_five_minutes sample_locale spanning_clock
               defaultPersistedState earlier_appends last_append 0%nat)
    with (now := 410000) as [Hrun Hall].
  - reflexivity.
  - reflexivity.
  - intros i Hi.
    assert (Hcases : i = 4%nat \/ i = 5%nat \/ i = 6%nat \/ i = 7%nat) by lia.
    destruct Hcases as [-> | [-> | [-> | ->]]]; cbn; lia.
  - eexists. split; [exact Hrun|]. split; [reflexivity | exact Hall].
Defined.

(** C8. After any sequence of appends the retained rows are a subsequence
    of everything ingested, in ingestion order: the rows of the initial
    state, then the rows of each batch in the order of the appends, each
    batch holding the rows of its events in batch order. Eviction only
    drops rows; it never moves one. *)
Theorem appends_keep_ingestion_order
    (toLocaleString : Z -> string) (clock : nat -> Z)
    (payloads : list Payload) (ps0 st : PersistedState) (k0 k1 : nat) :
  appends toLocaleString clock ps0 payloads k0 = Ok (st, k1) ->
  exists batches : list (list MessageRow),
    Forall2 (fun p rows => buildRow toLocaleString p = Ok rows
                           /\ map payload rows = events p) payloads batches
    /\ sublist (messageRows st) (messageRows ps0 ++ concat batches)%list.
Proof.
  revert ps0 k0. induction payloads as [|p rest IH]; intros ps0 k0 Hrun.
  - cbn in Hrun. inversion Hrun; subst. exists []. split; [constructor|].
    cbn. rewrite app_nil_r. reflexivity.
  - rewrite appends_cons, persistedStateReducer_newRow in Hrun.
    destruct (buildRow toLocaleString p) as [newRows|e] eqn:Hbuild; [|discriminate].
    destruct (IH _ _ Hrun) as (batches & Hall & Hsub). cbn [messageRows] in Hsub.
    exists (newRows :: batches). split.
    + constructor; [|exact Hall]. split; [exact Hbuild|].
      apply (buildRow_payloads toLocaleString p newRows Hbuild).
    + cbn [concat]. rewrite app_assoc. etransitivity; [exact Hsub|].
      apply sublist_app; [apply evict_sublist | reflexivity].
Qed.

Lemma appends_keep_ingestion_order_witness :
  exists (st : PersistedState) (batches : list (list MessageRow)),
    appends sample_locale spanning_clock defaultPersistedState
      (earlier_appends ++ [last_append]) 0%nat = Ok (st, 8%nat)
    /\ map (map key) batches = [["1"]; ["2"; "3"]; ["4"]]
    /\ map key (messageRows st) = ["2"; "3"; "4"]
    /\ sublist (messageRows st) (messageRows defaultPersistedState ++ concat batches)%list.
Proof.
  edestruct (appends_keep_ingestion_order sample_locale spanning_clock
               (earlier_appends ++ [last_append]) defaultPersistedState)
    with (k0 := 0%nat) as (batches & Hall & Hsub); [reflexivity|].
  eexists _, batches. split; [reflexivity|]. split; [|split; [reflexivity | exact Hsub]].
  unfold earlier_appends, last_append in Hall. cbn [app] in Hall.
  repeat match goal with
         | H : Forall2 _ (_ :: _) _ |- _ => inversion H; subst; clear H
         | H : Forall2 _ [] _ |- _ => inversion H; subst; clear H
         | H : buildRow _ _ = Ok _ /\ _ |- _ => destruct H as [H _]; inversion H; subst; clear H
         end.
  reflexivity.
Defined.

(** ** Selection *)

(** C9. After [clear] the retained sequence is empty and the sidebar shows
    the placeholder, whatever row was selected before, and whatever key is
    selected afterwards while the buffer stays empty. In general a selected
    key that no row of the buffer carries (evicted or cleared) resolves to
    the placeholder; the lookup cannot fail. *)
Theorem clear_then_placeholder (ps : PersistedState) (st : State) :
  messageRows (fst (clear ps st)) = []
  /\ selectedId (snd (clear ps st)) = None
  /\ renderSidebar (fst (clear ps st)) (snd (clear ps st)) = Placeholder
  /\ (forall st' : State, renderSidebar (fst (clear ps st)) st' = Placeholder)
  /\ (forall (ps' : PersistedState) (st' : State) (sid : string),
        selectedId st' = Some sid ->
        Forall (fun row => key row <> sid) (messageRows ps') ->
        renderSidebar ps' st' = Placeholder).
Proof.
  repeat split.
  - intros st'. unfold renderSidebar. cbn. destruct (selectedId st'); reflexivity.
  - intros ps' st' sid Hsel Hnone. unfold renderSidebar. rewrite Hsel.
    destruct (List.find _ _) as [message|] eqn:Hfind; [|reflexivity].
    apply List.find_some in Hfind as [Hin Heq].
    apply String.eqb_eq in Heq.
    rewrite Forall_forall in Hnone. exfalso. apply (Hnone message); [|exact Heq].
    apply list_elem_of_In. exact Hin.
Qed.

Lemma clear_then_placeholder_witness :
  renderSidebar {| messageRows := [sample_row "2" 250000; sample_row "3" 250001] |}
    {| selectedId := Some "1"; filters := []; messagesPerSecond := 0;
       bandwidthPerSecond := 0%Q |} = Placeholder.
Proof.
  apply (clear_then_placeholder defaultPersistedState initialState) with (sid := "1").
  - reflexivity.
  - repeat constructor; discriminate.
Defined.

(** C10. The row-highlight handler called with no key returns the state
    as it is, every field untouched; called with at least one key it sets
    [selectedId] to the first key and leaves the other fields alone. *)
Theorem onRowHighlighted_frame (st : State) :
  onRowHighlighted [] st = st
  /\ (forall (k0 : string) (rest : list string),
        onRowHighlighted (k0 :: rest) st
        = {| selectedId := Some k0; filters := filters st;
             messagesPerSecond := messagesPerSecond st;
             bandwidthPerSecond := bandwidthPerSecond st |}).
Proof.
  split; [reflexivity|]. intros k0 rest. reflexivity.
Qed.

(** ** Filter predicate *)

Lemma filterMessages_callback_run clock fs row k :
  filterMessages_callback clock fs row k
  = if 5 * 1000 <? clock k - timestamp row then Ok (false, S k)
    else if (length fs =? 0)%nat then Ok (true, S k)
    else lift (first_filter_result fs row) (S k).
Proof.
  unfold filterMessages_callback. rewrite bind_run. unfold Date_now.
  destruct (5 * 1000 <? clock k - timestamp row); [reflexivity|].
  destruct (length fs =? 0)%nat; reflexivity.
Qed.

Lemma get_column_resolves (cols : Columns) (k : string) :
  key_resolves k = true ->
  exists v, get_value (get_column cols k) = Ok v.
Proof.
  unfold key_resolves, is_column, column_keys, get_column. cbn [existsb].
  repeat (destruct (String.eqb k _); [intros _; eexists; reflexivity|]).
  cbn [orb]. intros ->. eexists. reflexivity.
Qed.

Lemma get_column_unresolved (cols : Columns) (k : string) :
  key_resolves k = false -> get_column cols k = Undefined.
Proof.
  unfold key_resolves, is_column, column_keys, get_column. cbn [existsb].
  repeat (destruct (String.eqb k _); [discriminate|]).
  cbn [orb]. intros ->. reflexivity.
Qed.

Lemma get_column_inherited (cols : Columns) (k : string) :
  is_column k = false -> key_resolves k = true -> get_column cols k = Inherited.
Proof.
  unfold key_resolves, is_column, column_keys, get_column. cbn [existsb].
  repeat (destruct (String.eqb k _); [discriminate|]).
  cbn [orb]. intros _ ->. reflexivity.
Qed.

(** C1, as the code has it. The per-row test of [filterMessages] first
    reads the clock: a row outside the 5-second window is rejected before
    any filter is looked at. For a row inside the window and a non-empty
    filter set the test returns exactly the outcome of the first filter's
    equality [row.columns[filter.key].value === filter.value] (its
    exception included); the remaining filters are never evaluated, so the
    result is the one of the first filter alone, and a row that fails the
    first filter does not match, whatever a later filter would say. *)
Theorem callback_is_first_filter_inside_window
    (clock : nat -> Z) (filter : Filter) (rest : list Filter)
    (row : MessageRow) (k : nat) :
  filterMessages_callback clock (filter :: rest) row k
  = (if 5 * 1000 <? clock k - timestamp row then Ok (false, S k)
     else lift (filter_equality filter row) (S k))
  /\ filterMessages_callback clock (filter :: rest) row k
     = filterMessages_callback clock [filter] row k
  /\ (filter_equality filter row = Ok false ->
      filterMessages_callback clock (filter :: rest) row k = Ok (false, S k)).
Proof.
  rewrite !filterMessages_callback_run. cbn [length Nat.eqb first_filter_result].
  repeat split.
  intros ->. destruct (5 * 1000 <? clock k - timestamp row); reflexivity.
Qed.

(** The claim as the spec words it fails on a row that has left the
    window: the first filter's equality holds, the test answers [false]. *)
Lemma callback_rejects_row_outside_window :
  filter_equality (by_type "in") (sample_row "1" 0) = Ok true
  /\ filterMessages_callback (steady 5001) [by_type "in"] (sample_row "1" 0) 0%nat
     = Ok (false, 1%nat).
Proof. split; reflexivity. Qed.

Lemma callback_is_first_filter_inside_window_witness :
  filterMessages_callback (steady 5000) [by_type "out"; by_module "UIManager"]
    (sample_row "1" 0) 0%nat = Ok (false, 1%nat)
  /\ filter_equality (by_module "UIManager") (sample_row "1" 0) = Ok true.
Proof.
  split; [|reflexivity].
  apply (callback_is_first_filter_inside_window (steady 5000) (by_type "out")
           [by_module "UIManager"] (sample_row "1" 0) 0%nat).
  reflexivity.
Defined.

(** C6, as the code has it. Take a filter whose key is none of the six
    columns, first in the active set. On a row outside the 5-second window
    the test returns [false]. On a row inside it, [row.columns[key]] is
    [undefined] and reading [.value] from it throws a TypeError, unless the
    key names a member that every object inherits from [Object.prototype],
    whose [.value] is [undefined]: then the test returns [false]. The row
    never matches. *)
Theorem unknown_column_throws_inside_window
    (clock : nat -> Z) (filter : Filter) (rest : list Filter)
    (row : MessageRow) (k : nat) :
  is_column (filter_key filter) = false ->
  filterMessages_callback clock (filter :: rest) row k
  = (if 5 * 1000 <? clock k - timestamp row then Ok (false, S k)
     else if key_resolves (filter_key filter) then Ok (false, S k)
     else Throw TypeError)
  /\ (forall k', filterMessages_callback clock (filter :: rest) row k = Ok (true, k') -> False).
Proof.
  intros Hcol.
  assert (Hrun : filterMessages_callback clock (filter :: rest) row k
                 = (if 5 * 1000 <? clock k - timestamp row then Ok (false, S k)
                    else if key_resolves (filter_key filter) then Ok (false, S k)
                    else Throw TypeError)).
  { rewrite filterMessages_callback_run. cbn [length Nat.eqb first_filter_result].
    destruct (5 * 1000 <? clock k - timestamp row); [reflexivity|].
    unfold filter_equality.
    destruct (key_resolves (filter_key filter)) eqn:Hres.
    - rewrite (get_column_inherited _ _ Hcol Hres). reflexivity.
    - rewrite (get_column_unresolved _ _ Hres). reflexivity. }
  split; [exact Hrun|]. intros k'. rewrite Hrun.
  destruct (5 * 1000 <? clock k - timestamp row); [discriminate|].
  destruct (key_resolves (filter_key filter)); discriminate.
Qed.

(** The claim as the spec words it fails on a row inside the window: the
    test throws instead of returning [false]. *)
Lemma unknown_column_is_an_error :
  is_column (filter_key (by_unknown "app")) = false
  /\ get_column (columns (sample_row "1" 0)) (filter_key (by_unknown "app")) = Undefined
  /\ filterMessages_callback (steady 1000) [by_unknown "app"] (sample_row "1" 0) 0%nat
     = Throw TypeError
  /\ filterMessages (steady 1000) {| messageRows := [sample_row "1" 0] |}
       (onFilterChange [by_unknown "app"] initialState) 0%nat
     = Throw TypeError.
Proof. repeat split. Qed.

Lemma unknown_column_throws_inside_window_witness :
  is_column (filter_key (by_unknown "app")) = false
  /\ filterMessages_callback (steady 1000) [by_unknown "app"; by_type "in"]
       (sample_row "1" 0) 0%nat = Throw TypeError
  /\ filterMessages_callback (steady 9000) [by_unknown "app"; by_type "in"]
       (sample_row "1" 0) 0%nat = Ok (false, 1%nat).
Proof.
  split; [reflexivity|]. split.
  - apply (unknown_column_throws_inside_window (steady 1000) (by_unknown "app")
             [by_type "in"] (sample_row "1" 0) 0%nat).
    reflexivity.
  - apply (unknown_column_throws_inside_window (steady 9000) (by_unknown "app")
             [by_type "in"] (sample_row "1" 0) 0%nat).
    reflexivity.
Defined.

(** ** Serialization *)

Lemma jsval_nested_ind (P : jsval -> Prop) :
  P JUndefined -> P JNull -> (forall b, P (JBool b)) -> (forall z, P (JNum z)) ->
  (forall z, P (JBigInt z)) -> (forall s, P (JStr s)) ->
  (forall elems, Forall P elems -> P (JArr elems)) ->
  (forall props, Forall (fun p => P (snd p)) props -> P (JObj props)) ->
  (forall n, P (JBack n)) ->
  forall v, P v.
Proof.
  intros HU HN HB HZ HBig HS HArr HObj HBack. fix IH 1.
  intros [ | | b | z | z | s | elems | props | n];
    [ exact HU | exact HN | apply HB | apply HZ | apply HBig | apply HS | | | apply HBack ].
  - apply HArr. induction elems as [|e es IHes]; constructor; [apply IH | exact IHes].
  - apply HObj. induction props as [|[k e] ps IHps]; constructor; [apply IH | exact IHps].
Qed.

Lemma SerializeJSONProperty_JArr (elems : list jsval) :
  SerializeJSONProperty (JArr elems)
  = try! parts := SerializeJSONArray elems in
    Ok (Some ("[" ++ join_comma parts ++ "]")).
Proof.
  cbn [SerializeJSONProperty]. f_equal. unfold SerializeJSONArray.
  induction elems as [|e es IH]; [reflexivity|].
  cbn [Array_map]. rewrite <- IH.
  destruct (SerializeJSONProperty e) as [o|err]; reflexivity.
Qed.

Lemma SerializeJSONProperty_JObj (props : list (string * jsval)) :
  SerializeJSONProperty (JObj props)
  = try! parts := SerializeJSONObject props in
    Ok (Some ("{" ++ join_comma parts ++ "}")).
Proof.
  reflexivity.
Qed.

(** [JSON.stringify] returns exactly on the values without BigInt and
    without back edge, and throws a TypeError on the others. *)
Lemma JSON_stringify_serializable (v : jsval) :
  if serializable v
  then exists o, JSON_stringify v = Ok o
  else JSON_stringify v = Throw TypeError.
Proof.
  unfold JSON_stringify.
  induction v as [ | | b | z | z | s | elems IH | props IH | n] using jsval_nested_ind;
    try (cbn; eauto; fail).
  - destruct b; cbn; eauto.
  - rewrite SerializeJSONProperty_JArr. cbn [serializable].
    assert (Hloop : if forallb serializable elems
                    then exists parts, SerializeJSONArray elems = Ok parts
                    else SerializeJSONArray elems = Throw TypeError).
    { unfold SerializeJSONArray.
      induction IH as [|e es He _ IHes]; cbn [forallb Array_map]; [eauto|].
      destruct (serializable e).
      - destruct He as [o ->]. cbn [andb rbind].
        destruct (forallb serializable es).
        + destruct IHes as [parts ->]. cbn. eauto.
        + rewrite IHes. reflexivity.
      - rewrite He. reflexivity. }
    destruct (forallb serializable elems).
    + destruct Hloop as [parts ->]. cbn. eauto.
    + rewrite Hloop. reflexivity.
  - rewrite SerializeJSONProperty_JObj. cbn [serializable].
    assert (Hloop : if forallb (fun p : string * jsval => let '(_, e) := p in serializable e) props
                    then exists parts, SerializeJSONObject props = Ok parts
                    else SerializeJSONObject props = Throw TypeError).
    { induction IH as [|[key0 e] ps He _ IHps]; cbn [forallb SerializeJSONObject]; [eauto|].
      cbn [snd] in He. destruct (serializable e).
      - destruct He as [o ->]. cbn [andb rbind].
        destruct (forallb _ ps).
        + destruct IHps as [parts ->]. cbn. destruct o; eauto.
        + rewrite IHps. reflexivity.
      - rewrite He. reflexivity. }
    destruct (forallb _ props).
    + destruct Hloop as [parts ->]. cbn. eauto.
    + rewrite Hloop. reflexivity.
Qed.

(** C5, as the code has it. [buildRow] has no local catch and no sentinel:
    it returns exactly when the [args] of every event of the batch can be
    serialized (no cyclic reference, no BigInt); each row then keeps its
    event as payload, in batch order, and its [args] cell holds
    [JSON.stringify (args)]. When the [args] of one event cannot be
    serialized, the TypeError of [JSON.stringify] leaves [buildRow] and no
    event of the batch is converted. *)
Theorem buildRow_returns_iff_args_serializable
    (toLocaleString : Z -> string) (p : Payload) :
  if forallb (fun r => serializable (args r)) (events p)
  then exists rows,
         buildRow toLocaleString p = Ok rows
         /\ map payload rows = events p
         /\ Forall (fun row => Ok (value (col_args (columns row)))
                               = JSON_stringify (args (payload row))) rows
  else buildRow toLocaleString p = Throw TypeError.
Proof.
  unfold buildRow. fold (events p). generalize (events p) as rs. clear p.
  induction rs as [|r rs IH]; cbn [forallb Array_map].
  - exists []. repeat split. constructor.
  - pose proof (JSON_stringify_serializable (args r)) as Hr.
    destruct (serializable (args r)); cbn [andb].
    + destruct Hr as [a Ha].
      destruct (buildRow_one toLocaleString r) as [row|e] eqn:Hrow;
        [|unfold buildRow_one in Hrow; rewrite Ha in Hrow; discriminate].
      destruct (buildRow_one_payload _ _ _ Hrow) as (Hp & _ & _ & Hargs).
      cbn [rbind]. destruct (forallb _ rs).
      * destruct IH as (rows & -> & Hmap & Hall). exists (row :: rows). cbn.
        repeat split; [congruence|]. constructor; [congruence | exact Hall].
      * rewrite IH. reflexivity.
    + unfold buildRow_one. rewrite Hr. reflexivity.
Qed.

(** The claim as the spec words it fails on an event whose [args] holds a
    reference to itself: [buildRow] throws, alone or inside a batch, and so
    does the reducer. *)
Lemma buildRow_throws_on_cyclic_args :
  JSON_stringify cyclic_args = Throw TypeError
  /\ buildRow sample_locale (One (event "1" 0 cyclic_args)) = Throw TypeError
  /\ buildRow sample_locale
       (Many [event "1" 0 JNull; event "2" 0 cyclic_args; event "3" 0 JNull])
     = Throw TypeError
  /\ persistedStateReducer sample_locale (steady 0) defaultPersistedState "newRow"
       (Many [event "1" 0 JNull; event "2" 0 cyclic_args; event "3" 0 JNull]) 0%nat
     = Throw TypeError.
Proof. repeat split. Qed.

Lemma buildRow_returns_iff_args_serializable_witness :
  exists rows,
    buildRow sample_locale (Many [event "1" 0 JNull; event "2" 5 (JArr [JNum 1; JUndefined])])
    = Ok rows
    /\ map key rows = ["1"; "2"]
    /\ map (fun row => value (col_args (columns row))) rows = [Some "null"; Some "[1,null]"].
Proof.
  destruct (buildRow_returns_iff_args_serializable sample_locale
              (Many [event "1" 0 JNull; event "2" 5 (JArr [JNum 1; JUndefined])]))
    as (rows & Hbuild & _ & _).
  exists rows. split; [exact Hbuild|].
  cbv in Hbuild. inversion Hbuild. split; reflexivity.
Defined.

Lemma buildRow_rows_serializable toLocaleString p rows :
  buildRow toLocaleString p = Ok rows ->
  forall row, In row rows -> row_serializable row = true.
Proof.
  unfold buildRow. generalize (match p with One r => [r] | Many rs => rs end) as rs.
  intros rs. revert rows. induction rs as [|r rs IH]; intros rows H; cbn [Array_map] in H.
  - inversion H. intros row [].
  - destruct (buildRow_one toLocaleString r) as [row0|e] eqn:Hrow; [|discriminate].
    cbn [rbind] in H.
    destruct (Array_map (buildRow_one toLocaleString) rs) as [rows'|e]; [|discriminate].
    cbn [rbind] in H. inversion H; subst. intros row [<-|Hin]; [|apply (IH rows' eq_refl row Hin)].
    unfold row_serializable. destruct (buildRow_one_payload _ _ _ Hrow) as (-> & _ & _ & Hargs).
    pose proof (JSON_stringify_serializable (args r)) as Hs.
    destruct (serializable (args r)); [reflexivity|]. rewrite Hs in Hargs. discriminate.
Qed.

(** ** Rate sampler *)

Lemma Array_filter_steady {A : Type} (callback : A -> M bool) (p : A -> bool)
    (xs : list A) (k : nat) :
  (forall x i, In x xs -> (k <= i < k + length xs)%nat -> callback x i = Ok (p x, S i)) ->
  Array_filter callback xs k = Ok (List.filter p xs, (k + length xs)%nat).
Proof.
  revert k. induction xs as [|x xs IH]; intros k Hcb; cbn [Array_filter List.filter length].
  - unfold ret. do 2 f_equal. lia.
  - rewrite bind_run, (Hcb x k); [|left; reflexivity | cbn [length]; lia].
    rewrite bind_run, IH.
    + unfold ret. replace (S k + length xs)%nat with (k + S (length xs))%nat by lia.
      destruct (p x); reflexivity.
    + intros y i Hy Hi. apply Hcb; [right; exact Hy | cbn [length]; lia].
Qed.

Lemma filterMessages_callback_steady clock now fs row i :
  clock i = now ->
  filters_resolve fs = true ->
  filterMessages_callback clock fs row i
  = Ok (in_sample_window now row && passes_filters fs row, S i).
Proof.
  intros Hnow Hres. rewrite filterMessages_callback_run, Hnow. unfold in_sample_window.
  destruct (Z.ltb_spec (5 * 1000) (now - timestamp row)) as [Hout|Hin];
    destruct (Z.leb_spec (now - timestamp row) (5 * 1000)) as [Hin'|Hout']; try lia;
    [reflexivity|].
  destruct fs as [|filter rest]; [reflexivity|].
  cbn [length Nat.eqb andb passes_filters first_filter_result]. cbn [filters_resolve] in Hres.
  unfold filter_equality.
  destruct (get_column_resolves (columns row) _ Hres) as [v ->]. reflexivity.
Qed.

Lemma filterMessages_steady clock now ps st k :
  (forall i, (k <= i < k + length (messageRows ps))%nat -> clock i = now) ->
  filters_resolve (filters st) = true ->
  filterMessages clock ps st k
  = Ok (matched_rows now (filters st) (messageRows ps), (k + length (messageRows ps))%nat).
Proof.
  intros Hclk Hres. unfold filterMessages, matched_rows.
  apply Array_filter_steady. intros row i _ Hi.
  apply filterMessages_callback_steady; [apply Hclk; exact Hi | exact Hres].
Qed.

Lemma Qceiling_fifth (n : Z) :
  5 * (Qceiling (n # 5) - 1) < n <= 5 * Qceiling (n # 5).
Proof.
  unfold Qceiling, Qfloor, Qopp. cbn [Qnum Qden].
  pose proof (Z.div_mod (- n) 5) as Hdiv. pose proof (Z.mod_pos_bound (- n) 5) as Hmod.
  lia.
Qed.

Lemma string_length_append (s t : string) :
  String.length (s ++ t) = (String.length s + String.length t)%nat.
Proof. induction s as [|c s IH]; cbn; [reflexivity | rewrite IH; reflexivity]. Qed.

Lemma serializable_js_of_Cell (c : Cell) : serializable (js_of_Cell c) = true.
Proof. destruct c as [[v|] [|]]; reflexivity. Qed.

Lemma serializable_js_of_MessageRow (row : MessageRow) :
  serializable (js_of_MessageRow row) = row_serializable row.
Proof.
  unfold row_serializable, js_of_MessageRow, js_of_Columns, js_of_DataRow.
  cbn [serializable forallb]. rewrite !serializable_js_of_Cell.
  destruct (module (payload row)), (method (payload row)); cbn;
    destruct (serializable (args (payload row))); reflexivity.
Qed.

(** The array of rows serializes to a bracketed text as soon as the rows
    are serializable: at least the two bytes of ["[]"]. *)
Lemma JSON_stringify_rows (rows : list MessageRow) :
  forallb row_serializable rows = true ->
  exists parts,
    JSON_stringify (js_of_rows rows) = Ok (Some ("[" ++ join_comma parts ++ "]"))
    /\ length parts = length rows.
Proof.
  intros Hrows. unfold JSON_stringify, js_of_rows. rewrite SerializeJSONProperty_JArr.
  assert (Hloop : exists parts, SerializeJSONArray (map js_of_MessageRow rows) = Ok parts
                                /\ length parts = length rows).
  { unfold SerializeJSONArray. induction rows as [|row rows IH]; cbn [map Array_map].
    - exists []. split; reflexivity.
    - cbn [forallb] in Hrows. apply andb_true_iff in Hrows as [Hrow Hrest].
      pose proof (JSON_stringify_serializable (js_of_MessageRow row)) as Hs.
      rewrite serializable_js_of_MessageRow, Hrow in Hs. destruct Hs as [o Ho].
      unfold JSON_stringify in Ho. rewrite Ho. cbn [rbind].
      destruct (IH Hrest) as (parts & -> & Hlen). cbn [rbind].
      eexists. split; [reflexivity|]. cbn [length]. rewrite Hlen. reflexivity. }
  destruct Hloop as (parts & -> & Hlen). exists parts. split; [reflexivity | exact Hlen].
Qed.

Lemma forallb_filter_true {A : Type} (p q : A -> bool) (xs : list A) :
  forallb p xs = true -> forallb p (List.filter q xs) = true.
Proof.
  induction xs as [|x xs IH]; cbn; [reflexivity|].
  intros H. apply andb_true_iff in H as [Hx Hxs].
  destruct (q x); cbn; [rewrite Hx|]; auto.
Qed.

(** One tick under a clock that stands still, with a first filter that
    names a property and rows that serialize: both passes select the same
    rows and the tick publishes both figures. *)
Lemma tick_steady clock now ps st k :
  (forall i, (k <= i < k + 2 * length (messageRows ps))%nat -> clock i = now) ->
  filters_resolve (filters st) = true ->
  forallb row_serializable (messageRows ps) = true ->
  exists text,
    JSON_stringify (js_of_rows (matched_rows now (filters st) (messageRows ps)))
    = Ok (Some text)
    /\ (2 <= String.length text)%nat
    /\ getMessagesPerSecond clock ps st k
       = Ok (Qceiling (matched_count now (filters st) (messageRows ps) # 5),
             (k + length (messageRows ps))%nat)
    /\ getBandwidthPerSecond clock ps st (k + length (messageRows ps))%nat
       = Ok (Z.of_nat (String.length text) # 5,
             (k + length (messageRows ps) + length (messageRows ps))%nat)
    /\ tick clock ps st k
       = Ok ({| selectedId := selectedId st; filters := filters st;
                messagesPerSecond :=
                  Qceiling (matched_count now (filters st) (messageRows ps) # 5);
                bandwidthPerSecond := Z.of_nat (String.length text) # 5 |},
             (k + length (messageRows ps) + length (messageRows ps))%nat).
Proof.
  intros Hclk Hres Hser.
  destruct (JSON_stringify_rows (matched_rows now (filters st) (messageRows ps)))
    as (parts & Htext & _); [apply forallb_filter_true; exact Hser|].
  exists ("[" ++ join_comma parts ++ "]").
  assert (Hfirst : getMessagesPerSecond clock ps st k
                   = Ok (Qceiling (matched_count now (filters st) (messageRows ps) # 5),
                         (k + length (messageRows ps))%nat)).
  { unfold getMessagesPerSecond. rewrite bind_run, (filterMessages_steady clock now).
    - reflexivity.
    - intros i Hi. apply Hclk. lia.
    - exact Hres. }
  assert (Hsecond : getBandwidthPerSecond clock ps st (k + length (messageRows ps))%nat
                    = Ok (Z.of_nat (String.length ("[" ++ join_comma parts ++ "]")) # 5,
                          (k + length (messageRows ps) + length (messageRows ps))%nat)).
  { unfold getBandwidthPerSecond. rewrite bind_run, (filterMessages_steady clock now).
    - rewrite bind_run. unfold lift, getSizeInBytes, js_of_rows.
      unfold js_of_rows in Htext. rewrite Htext. reflexivity.
    - intros i Hi. apply Hclk. lia.
    - exact Hres. }
  split; [exact Htext|]. split.
  { rewrite !string_length_append. cbn. lia. }
  split; [exact Hfirst|]. split; [exact Hsecond|].
  unfold tick. rewrite bind_run, Hfirst, bind_run, Hsecond. reflexivity.
Qed.

(** Rows that the reducer has built serialize: the hypothesis of the two
    sampler theorems holds of every state that appends reach from a state
    where it holds. *)
Lemma appends_rows_serializable toLocaleString clock payloads : forall ps0 k0 st k1,
  forallb row_serializable (messageRows ps0) = true ->
  appends toLocaleString clock ps0 payloads k0 = Ok (st, k1) ->
  forallb row_serializable (messageRows st) = true.
Proof.
  induction payloads as [|p rest IH]; intros ps0 k0 st k1 Hser Hrun.
  - cbn in Hrun. inversion Hrun; subst. exact Hser.
  - rewrite appends_cons, persistedStateReducer_newRow in Hrun.
    destruct (buildRow toLocaleString p) as [newRows|e] eqn:Hrows; [|discriminate].
    pose proof (buildRow_rows_serializable toLocaleString p newRows Hrows) as Hbuild.
    apply (IH _ _ _ _) in Hrun; [exact Hrun|]. cbn [messageRows].
    apply forallb_forall. intros row Hin.
    apply list_elem_of_In in Hin.
    apply (fun H => elem_of_sublist _ _ _ H (evict_sublist clock k0 _)) in Hin.
    apply list_elem_of_In, in_app_or in Hin. destruct Hin as [Hold|Hnew].
    + rewrite forallb_forall in Hser. apply Hser. exact Hold.
    + apply (Hbuild row Hnew).
Qed.

Lemma passes_filters_matches (fs : list Filter) (row : MessageRow) :
  passes_filters fs row = matches row fs.
Proof.
  destruct fs as [|filter rest]; [reflexivity|].
  unfold passes_filters, matches, first_filter_result, filter_equality, get_column, cells.
  cbn [cell_of].
  repeat (destruct (String.eqb (filter_key filter) _);
          [cbn; destruct (value _); reflexivity|]).
  destruct (existsb _ _); reflexivity.
Qed.

Lemma filterMessages_callback_returns clock fs row i :
  filters_resolve fs = true ->
  exists b, filterMessages_callback clock fs row i = Ok (b, S i).
Proof.
  intros Hres. rewrite filterMessages_callback_run.
  destruct (_ <? _); [eauto|]. destruct fs as [|filter rest]; [cbn; eauto|].
  cbn [length Nat.eqb first_filter_result]. cbn [filters_resolve] in Hres.
  unfold filter_equality.
  destruct (get_column_resolves (columns row) _ Hres) as [v ->]. cbn. eauto.
Qed.

(** With a first filter on a known column [filterMessages] returns, for
    any clock: a selection of the buffer, after one reading per row. *)
Lemma filterMessages_returns clock ps st k :
  filters_resolve (filters st) = true ->
  exists rows,
    filterMessages clock ps st k = Ok (rows, (k + length (messageRows ps))%nat)
    /\ sublist rows (messageRows ps).
Proof.
  intros Hres.
  assert (Hrun : exists rows,
             filterMessages clock ps st k = Ok (rows, (k + length (messageRows ps))%nat)).
  { unfold filterMessages. revert k.
    induction (messageRows ps) as [|row rows IH]; intros k; cbn [Array_filter length].
    - exists []. unfold ret. do 2 f_equal. lia.
    - destruct (filterMessages_callback_returns clock (filters st) row k Hres) as [b Hb].
      destruct (IH (S k)) as [kept Hkept].
      rewrite bind_run, Hb, bind_run, Hkept. unfold ret.
      replace (S k + length rows)%nat with (k + S (length rows))%nat by lia. eauto. }
  destruct Hrun as [rows Hrun]. exists rows. split; [exact Hrun|].
  exact (Array_filter_sublist _ _ _ _ _ Hrun).
Qed.

Lemma forallb_sublist {A : Type} (p : A -> bool) (kept xs : list A) :
  sublist kept xs -> forallb p xs = true -> forallb p kept = true.
Proof.
  intros Hsub Hall. rewrite forallb_forall in *. intros x Hin.
  apply Hall. apply list_elem_of_In. apply list_elem_of_In in Hin.
  exact (elem_of_sublist _ _ _ Hin Hsub).
Qed.

(** C4. On a sampler tick, with [now] the time the clock shows while the
    rate is sampled, a first filter (if any) whose key names a column, and
    rows as the reducer builds them, the tick completes and publishes
    [messagesPerSecond = ceil (n / 5)], where [n] counts the buffer rows
    with [now - timestamp <= 5 seconds] that match the active filter set:
    the least integer [m] with [n <= 5 m]. With ten rows in the window and
    no filter the figure is 2. *)
Theorem tick_messagesPerSecond_is_ceiling
    (clock : nat -> Z) (now : Z) (ps : PersistedState) (st : State) (k : nat) :
  (forall i, (k <= i < k + length (messageRows ps))%nat -> clock i = now) ->
  filters_resolve (filters st) = true ->
  forallb row_serializable (messageRows ps) = true ->
  exists (st' : State) (k' : nat),
    tick clock ps st k = Ok (st', k')
    /\ messagesPerSecond st'
       = Qceiling (sample_count now (filters st) (messageRows ps) # 5)
    /\ 5 * (messagesPerSecond st' - 1)
       < sample_count now (filters st) (messageRows ps)
       <= 5 * messagesPerSecond st'
    /\ (filters st = [] ->
        Z.of_nat (length (List.filter (fun row => now - timestamp row <=? 5 * 1000)
                            (messageRows ps))) = 10 ->
        messagesPerSecond st' = 2).
Proof.
  intros Hclk Hres Hser.
  assert (Hcount : matched_count now (filters st) (messageRows ps)
                   = sample_count now (filters st) (messageRows ps)).
  { unfold matched_count, matched_rows, sample_count. do 2 f_equal.
    apply filter_ext. intros row. rewrite passes_filters_matches. reflexivity. }
  destruct (filterMessages_returns clock ps st (k + length (messageRows ps)) Hres)
    as (rows2 & Hsecond & Hsub).
  destruct (JSON_stringify_rows rows2 (forallb_sublist _ _ _ Hsub Hser))
    as (parts & Htext & _).
  eexists _, _. split.
  - unfold tick, getMessagesPerSecond. rewrite !bind_run.
    rewrite (filterMessages_steady clock now ps st k Hclk Hres). unfold ret at 1.
    unfold getBandwidthPerSecond. rewrite !bind_run, Hsecond, bind_run.
    unfold lift, getSizeInBytes, js_of_rows. unfold js_of_rows in Htext. rewrite Htext.
    reflexivity.
  - cbn [messagesPerSecond]. unfold Math_ceil. fold (matched_count now (filters st) (messageRows ps)).
    rewrite Hcount. split; [reflexivity|]. split; [apply Qceiling_fifth|].
    intros Hnone Hten. unfold sample_count. rewrite Hnone. cbn [matches].
    rewrite (filter_ext _ (fun row => now - timestamp row <=? 5 * 1000));
      [|intros row; apply andb_true_r].
    rewrite Hten. reflexivity.
Qed.

Lemma tick_messagesPerSecond_is_ceiling_witness :
  exists (st' : State) (k' : nat),
    tick (steady_until 13 10000 20000) mixed_buffer
      (onFilterChange [by_type "out"; by_module "UIManager"] initialState) 0%nat
    = Ok (st', k')
    /\ sample_count 10000 [by_type "out"; by_module "UIManager"] (messageRows mixed_buffer) = 5
    /\ messagesPerSecond st' = 1
    /\ sample_count 10000 [] (messageRows mixed_buffer) = 12
    /\ sample_count 10000 [by_type "in"] (messageRows mixed_buffer) = 7.
Proof.
  destruct (tick_messagesPerSecond_is_ceiling (steady_until 13 10000 20000) 10000
              mixed_buffer
              (onFilterChange [by_type "out"; by_module "UIManager"] initialState) 0%nat)
    as (st' & k' & Htick & Hrate & _).
  - intros i Hi. unfold steady_until.
    destruct (Nat.ltb_spec i 13) as [_|Hge]; [reflexivity|]. cbn in Hi. lia.
  - reflexivity.
  - reflexivity.
  - exists st', k'. split; [exact Htick|]. split; [reflexivity|].
    split; [rewrite Hrate; reflexivity|]. split; reflexivity.
Defined.

(** C3. Where the code departs from the claim. [getBandwidthPerSecond]
    hands [getSizeInBytes] the array that [filterMessages] returns, not the
    payloads of its rows. On an idle buffer the matched rows' payloads add
    up to 0 bytes, so the claim gives 0, the figure that the initial state
    and [onFilterChange] also hold and that the guard of [formatBytes]
    prints as ["0 B/s"]; the tick publishes 2/5, the two bytes of ["[]"]
    divided by 5. With one matched row the payload has 86 bytes and the
    tick publishes 389/5. *)
Lemma bandwidth_is_not_the_payload_total :
  payloads_size (matched_rows 1000 [] (messageRows defaultPersistedState)) = Ok 0%nat
  /\ tick (steady 1000) defaultPersistedState initialState 0%nat
     = Ok ({| selectedId := None; filters := []; messagesPerSecond := 0;
              bandwidthPerSecond := 2 # 5 |}, 0%nat)
  /\ payloads_size (matched_rows 1000 [] [sample_row "1" 0]) = Ok 86%nat
  /\ tick (steady 1000) {| messageRows := [sample_row "1" 0] |} initialState 0%nat
     = Ok ({| selectedId := None; filters := []; messagesPerSecond := 1;
              bandwidthPerSecond := 389 # 5 |}, 2%nat).
Proof. repeat split. Qed.

(** * Further properties of the component *)

(** ** More on the reducer *)

Lemma evict_steady (clock : nat -> Z) (now : Z) (rows : list MessageRow) (k : nat) :
  (forall i, (k <= i < k + length rows)%nat -> clock i = now) ->
  evict clock k rows = List.filter (fresh_at now) rows.
Proof.
  revert k. induction rows as [|row rows IH]; intros k Hclk; cbn [evict List.filter].
  - reflexivity.
  - rewrite (Hclk k), IH; [reflexivity | | cbn [length]; lia].
    intros i Hi. apply Hclk. cbn [length]. lia.
Qed.

Lemma evict_app (clock : nat -> Z) (xs ys : list MessageRow) (k : nat) :
  evict clock k (xs ++ ys) = (evict clock k xs ++ evict clock (k + length xs) ys)%list.
Proof.
  revert k. induction xs as [|x xs IH]; intros k; cbn [app evict length].
  - f_equal. lia.
  - rewrite IH. replace (S k + length xs)%nat with (k + S (length xs))%nat by lia.
    destruct (_ <? _); reflexivity.
Qed.

Lemma evict_elem (clock : nat -> Z) (rows : list MessageRow) (k : nat) (row : MessageRow) :
  In row (evict clock k rows) ->
  In row rows
  /\ exists i, (k <= i < k + length rows)%nat /\ clock i - timestamp row < 5 * 60 * 1000.
Proof.
  revert k. induction rows as [|r rows IH]; intros k Hin; cbn [evict] in Hin; [destruct Hin|].
  assert (Htail : In row (evict clock (S k) rows) ->
                  In row (r :: rows)
                  /\ exists i, (k <= i < k + length (r :: rows))%nat
                               /\ clock i - timestamp row < 5 * 60 * 1000).
  { intros H. destruct (IH _ H) as (Hrow & i & Hi & Hage). split; [right; exact Hrow|].
    exists i. split; [cbn [length]; lia | exact Hage]. }
  destruct (Z.ltb_spec (clock k - timestamp r) (5 * 60 * 1000)) as [Hlt|_]; [|auto].
  destruct Hin as [<-|Hin]; [|auto].
  split; [left; reflexivity|]. exists k. split; [cbn [length]; lia | exact Hlt].
Qed.

Lemma Array_map_app {A B : Type} (f : A -> result B) (xs ys : list A) :
  Array_map f (xs ++ ys)
  = try! a := Array_map f xs in
    try! b := Array_map f ys in
    Ok (a ++ b)%list.
Proof.
  induction xs as [|x xs IH]; cbn [app Array_map].
  - destruct (Array_map f ys); reflexivity.
  - destruct (f x) as [y|e]; [|reflexivity]. cbn [rbind]. rewrite IH.
    destruct (Array_map f xs) as [a|e]; [|reflexivity]. cbn [rbind].
    destruct (Array_map f ys); reflexivity.
Qed.

Lemma buildRow_spec toLocaleString (p : Payload) :
  if batch_serializable p
  then exists rows, buildRow toLocaleString p = Ok rows /\ map payload rows = events p
  else buildRow toLocaleString p = Throw TypeError.
Proof.
  unfold batch_serializable, buildRow. fold (events p). generalize (events p) as rs. clear p.
  induction rs as [|r rs IH]; cbn [forallb Array_map].
  - exists []. split; reflexivity.
  - pose proof (JSON_stringify_serializable (args r)) as Hr.
    destruct (serializable (args r)); cbn [andb].
    + destruct Hr as [a Ha].
      assert (Hone : exists row, buildRow_one toLocaleString r = Ok row /\ payload row = r).
      { unfold buildRow_one. rewrite Ha. eexists. split; reflexivity. }
      destruct Hone as (row & -> & Hp). cbn [rbind]. destruct (forallb _ rs).
      * destruct IH as (rows & -> & Hmap). cbn [rbind]. eexists. split; [reflexivity|].
        cbn [map]. rewrite Hmap, Hp. reflexivity.
      * rewrite IH. reflexivity.
    + assert (Hone : buildRow_one toLocaleString r = Throw TypeError).
      { unfold buildRow_one. rewrite Hr. reflexivity. }
      rewrite Hone. reflexivity.
Qed.

Lemma filter_filter_app {A : Type} (p : A -> bool) (xs ys : list A) :
  List.filter p (List.filter p xs ++ ys) = List.filter p (xs ++ ys).
Proof.
  rewrite !List.filter_app. f_equal.
  induction xs as [|x xs IH]; cbn [List.filter]; [reflexivity|].
  destruct (p x) eqn:Hx; cbn [List.filter]; rewrite ?Hx, IH; reflexivity.
Qed.

(** X1. Under a clock that shows [now] during the call, an append whose
    batch serializes returns, takes one clock reading per row (old and
    new), and keeps exactly the rows of the old buffer followed by the new
    rows that are less than five minutes old: a row aged exactly 300000 ms
    is dropped. *)
Theorem newRow_keeps_exactly_the_fresh_rows
    (toLocaleString : Z -> string) (clock : nat -> Z) (now : Z)
    (ps : PersistedState) (p : Payload) (k : nat) :
  batch_serializable p = true ->
  (forall i, (k <= i < k + length (messageRows ps) + length (events p))%nat ->
             clock i = now) ->
  exists newRows,
    buildRow toLocaleString p = Ok newRows
    /\ map payload newRows = events p
    /\ persistedStateReducer toLocaleString clock ps "newRow" p k
       = Ok ({| messageRows :=
                  List.filter (fun row => now - timestamp row <? 300000)
                    (messageRows ps ++ newRows) |},
             (k + length (messageRows ps) + length (events p))%nat).
Proof.
  intros Hser Hclk. pose proof (buildRow_spec toLocaleString p) as Hbuild.
  rewrite Hser in Hbuild. destruct Hbuild as (newRows & Hbuild & Hmap).
  exists newRows. split; [exact Hbuild|]. split; [exact Hmap|].
  assert (Hlen : length newRows = length (events p))
    by (rewrite <- Hmap; symmetry; apply length_map).
  rewrite persistedStateReducer_newRow, Hbuild, length_app, Hlen.
  rewrite (evict_steady clock now).
  - do 2 f_equal. lia.
  - intros i Hi. apply Hclk. rewrite length_app, Hlen in Hi. lia.
Qed.

Lemma newRow_keeps_exactly_the_fresh_rows_witness :
  persistedStateReducer sample_locale (steady 300000)
    {| messageRows := [sample_row "a" 0; sample_row "b" 1] |} "newRow"
    (One (event "c" 2 JNull)) 0%nat
  = Ok ({| messageRows := [sample_row "b" 1; sample_row "c" 2] |}, 3%nat).
Proof.
  destruct (newRow_keeps_exactly_the_fresh_rows sample_locale (steady 300000) 300000
              {| messageRows := [sample_row "a" 0; sample_row "b" 1] |}
              (One (event "c" 2 JNull)) 0%nat)
    as (newRows & Hbuild & _ & Hrun).
  - reflexivity.
  - intros i _. reflexivity.
  - rewrite Hrun. cbv in Hbuild. inversion Hbuild. reflexivity.
Defined.

(** X2. Under a clock that stands still, delivering a batch in two appends
    gives the same persisted state as delivering it in one, and both throw
    in the same cases; a single record is the batch of that one record. *)
Theorem split_batch_gives_same_state
    (toLocaleString : Z -> string) (clock : nat -> Z) (now : Z)
    (ps : PersistedState) (rs1 rs2 : list DataRow) (k : nat) :
  (forall i, clock i = now) ->
  state_of (appends toLocaleString clock ps [Many rs1; Many rs2] k)
  = state_of (appends toLocaleString clock ps [Many (rs1 ++ rs2)] k)
  /\ (forall r, persistedStateReducer toLocaleString clock ps "newRow" (One r) k
                = persistedStateReducer toLocaleString clock ps "newRow" (Many [r]) k).
Proof.
  intros Hclk. split; [|reflexivity].
  rewrite !appends_cons, !persistedStateReducer_newRow. unfold buildRow.
  rewrite Array_map_app.
  destruct (Array_map (buildRow_one toLocaleString) rs1) as [rows1|e1]; [|reflexivity].
  cbn [rbind]. rewrite appends_cons, persistedStateReducer_newRow. unfold buildRow.
  cbn [messageRows].
  destruct (Array_map (buildRow_one toLocaleString) rs2) as [rows2|e2]; [|reflexivity].
  cbn [rbind appends]. unfold ret. cbn [state_of].
  rewrite !(evict_steady clock now) by (intros; apply Hclk).
  rewrite filter_filter_app, app_assoc. reflexivity.
Qed.

Lemma split_batch_gives_same_state_witness :
  state_of (appends sample_locale (steady 300001) defaultPersistedState
              [Many [event "a" 0 JNull; event "b" 2 JNull]; Many [event "c" 3 JNull]] 0%nat)
  = Ok {| messageRows := [sample_row "b" 2; sample_row "c" 3] |}
  /\ state_of (appends sample_locale (steady 300001) defaultPersistedState
                 [Many [event "a" 0 JNull; event "b" 2 JNull; event "c" 3 JNull]] 0%nat)
     = Ok {| messageRows := [sample_row "b" 2; sample_row "c" 3] |}.
Proof.
  split; [reflexivity|].
  transitivity
    (state_of (appends sample_locale (steady 300001) defaultPersistedState
                 [Many [event "a" 0 JNull; event "b" 2 JNull]; Many [event "c" 3 JNull]]
                 0%nat));
    [|reflexivity].
  symmetry.
  exact (proj1 (split_batch_gives_same_state sample_locale (steady 300001) 300001
                  defaultPersistedState [event "a" 0 JNull; event "b" 2 JNull]
                  [event "c" 3 JNull] 0%nat (fun _ => eq_refl))).
Defined.

(** X3. A run of appends returns exactly when every batch serializes; at
    the first batch that does not, the run throws a TypeError. *)
Theorem appends_return_iff_batches_serialize
    (toLocaleString : Z -> string) (clock : nat -> Z)
    (payloads : list Payload) (ps : PersistedState) (k : nat) :
  if forallb batch_serializable payloads
  then exists st k1, appends toLocaleString clock ps payloads k = Ok (st, k1)
  else appends toLocaleString clock ps payloads k = Throw TypeError.
Proof.
  revert ps k. induction payloads as [|p rest IH]; intros ps k; cbn [forallb].
  - eexists _, _. reflexivity.
  - rewrite appends_cons, persistedStateReducer_newRow.
    pose proof (buildRow_spec toLocaleString p) as Hbuild.
    destruct (batch_serializable p); cbn [andb].
    + destruct Hbuild as (rows & -> & _). apply IH.
    + rewrite Hbuild. destruct (forallb batch_serializable rest); reflexivity.
Qed.

(** ** Selection across appends *)

Lemma find_key_none (sid : string) (rows : list MessageRow) :
  Forall (fun row => key row <> sid) rows ->
  List.find (fun row => String.eqb (key row) sid) rows = None.
Proof.
  induction 1 as [|row rows Hrow _ IH]; cbn [List.find]; [reflexivity|].
  destruct (String.eqb_spec (key row) sid); [contradiction | exact IH].
Qed.

Lemma find_key_app (sid : string) (pre post : list MessageRow) :
  Forall (fun row => key row <> sid) pre ->
  List.find (fun row => String.eqb (key row) sid) (pre ++ post)
  = List.find (fun row => String.eqb (key row) sid) post.
Proof.
  induction 1 as [|row rows Hrow _ IH]; cbn [app List.find]; [reflexivity|].
  destruct (String.eqb_spec (key row) sid); [contradiction | exact IH].
Qed.

Lemma Forall_sublist_keys (sid : string) (kept rows : list MessageRow) :
  sublist kept rows ->
  Forall (fun row => key row <> sid) rows ->
  Forall (fun row => key row <> sid) kept.
Proof.
  intros Hsub Hall. rewrite Forall_forall in *. intros row Hin.
  apply Hall. exact (elem_of_sublist _ _ _ Hin Hsub).
Qed.

(** X4. Duplicate keys are allowed in the buffer, and the sidebar shows
    the payload of the earliest row that carries the selected key. *)
Theorem renderSidebar_shows_earliest_match
    (ps : PersistedState) (st : State) (sid : string)
    (pre post : list MessageRow) (row : MessageRow) :
  selectedId st = Some sid ->
  messageRows ps = (pre ++ row :: post)%list ->
  Forall (fun earlier => key earlier <> sid) pre ->
  key row = sid ->
  renderSidebar ps st = Extra (payload row).
Proof.
  intros Hsel Hrows Hpre Hkey. unfold renderSidebar.
  rewrite Hsel, Hrows, (find_key_app sid pre _ Hpre). cbn [List.find].
  rewrite Hkey, String.eqb_refl. reflexivity.
Qed.

Lemma renderSidebar_shows_earliest_match_witness :
  renderSidebar
    {| messageRows := [sample_row "1" 10; row_of (event "2" 20 JNull) (Some "null");
                       row_of (event "2" 30 (JNum 5)) (Some "5")] |}
    (onRowHighlighted ["2"; "1"] initialState)
  = Extra (event "2" 20 JNull).
Proof.
  apply (renderSidebar_shows_earliest_match _ _ "2" [sample_row "1" 10]
           [row_of (event "2" 30 (JNum 5)) (Some "5")]
           (row_of (event "2" 20 JNull) (Some "null"))).
  - reflexivity.
  - reflexivity.
  - repeat constructor. discriminate.
  - reflexivity.
Defined.

(** X5. Append, then select: when a serializable record whose id no row
    of the buffer carries is appended, and the clock reading taken for its
    row is less than five minutes after its time stamp, highlighting its
    id makes the sidebar show that very record. *)
Theorem appended_record_can_be_selected
    (toLocaleString : Z -> string) (clock : nat -> Z)
    (ps : PersistedState) (st : State) (r : DataRow) (rest : list string) (k : nat) :
  serializable (args r) = true ->
  clock (k + length (messageRows ps))%nat - time r < 5 * 60 * 1000 ->
  Forall (fun row => key row <> id r) (messageRows ps) ->
  exists ps' k',
    persistedStateReducer toLocaleString clock ps "newRow" (One r) k = Ok (ps', k')
    /\ renderSidebar ps' (onRowHighlighted (id r :: rest) st) = Extra r.
Proof.
  intros Hser Hage Hfresh_key.
  pose proof (JSON_stringify_serializable (args r)) as Hs. rewrite Hser in Hs.
  destruct Hs as [a Ha].
  rewrite persistedStateReducer_newRow. unfold buildRow. cbn [Array_map].
  unfold buildRow_one. rewrite Ha. cbn [rbind].
  eexists _, _. split; [reflexivity|].
  unfold renderSidebar, onRowHighlighted. cbn [length Nat.ltb Nat.leb selectedId head messageRows].
  rewrite evict_app, find_key_app
    by (apply (Forall_sublist_keys _ _ _ (evict_sublist clock k _) Hfresh_key)).
  cbn [evict timestamp].
  destruct (Z.ltb_spec (clock (k + length (messageRows ps))%nat - time r) (5 * 60 * 1000));
    [|lia].
  cbn [List.find key]. rewrite String.eqb_refl. reflexivity.
Qed.

Lemma appended_record_can_be_selected_witness :
  exists ps' k',
    persistedStateReducer sample_locale spanning_clock
      {| messageRows := [sample_row "1" 0] |} "newRow"
      (One (event "2" 250000 (JStr "x"))) 1%nat = Ok (ps', k')
    /\ renderSidebar ps' (onRowHighlighted ["2"] initialState)
       = Extra (event "2" 250000 (JStr "x")).
Proof.
  apply (appended_record_can_be_selected sample_locale spanning_clock
           {| messageRows := [sample_row "1" 0] |} initialState
           (event "2" 250000 (JStr "x")) [] 1%nat).
  - reflexivity.
  - cbn. lia.
  - repeat constructor. discriminate.
Defined.

(** X6. Eviction does not reset the selection. When an append evicts every
    row that carries the selected key (each is at least five minutes old
    at a time [now] not later than the readings of the append) and brings
    no record with that id, the selected key stays in the state and the
    sidebar falls back to the placeholder. *)
Theorem evicted_selection_shows_placeholder
    (toLocaleString : Z -> string) (clock : nat -> Z) (now : Z)
    (ps ps' : PersistedState) (st : State) (p : Payload) (sid : string) (k k' : nat) :
  selectedId st = Some sid ->
  persistedStateReducer toLocaleString clock ps "newRow" p k = Ok (ps', k') ->
  (forall i, (k <= i < k')%nat -> now <= clock i) ->
  Forall (fun row => key row = sid -> 5 * 60 * 1000 <= now - timestamp row)
    (messageRows ps) ->
  Forall (fun r => id r <> sid) (events p) ->
  renderSidebar ps' st = Placeholder.
Proof.
  intros Hsel Hrun Hclk Hold Hnew. unfold renderSidebar. rewrite Hsel.
  rewrite find_key_none; [reflexivity|].
  rewrite persistedStateReducer_newRow in Hrun.
  destruct (buildRow toLocaleString p) as [newRows|e] eqn:Hbuild; [|discriminate].
  inversion Hrun; subst. cbn [messageRows]. clear Hrun.
  pose proof (buildRow_payloads _ _ _ Hbuild) as Hpay.
  assert (Hkeys : Forall (fun row => key row <> sid) newRows).
  { unfold buildRow in Hbuild. fold (events p) in Hbuild. revert Hnew Hbuild.
    generalize (events p) as rs. clear. intros rs Hnew. revert newRows.
    induction Hnew as [|r rs Hr _ IH]; intros newRows Hbuild; cbn [Array_map] in Hbuild.
    - inversion Hbuild. constructor.
    - destruct (buildRow_one toLocaleString r) as [row|e] eqn:Hrow; [|discriminate].
      cbn [rbind] in Hbuild.
      destruct (Array_map (buildRow_one toLocaleString) rs) as [rows|e]; [|discriminate].
      cbn [rbind] in Hbuild. inversion Hbuild; subst. constructor; [|apply IH; reflexivity].
      destruct (buildRow_one_payload _ _ _ Hrow) as (_ & -> & _). exact Hr. }
  rewrite Forall_forall. intros row Hin Hkey.
  apply list_elem_of_In, evict_elem in Hin. destruct Hin as (Hin & i & Hi & Hage).
  apply in_app_or in Hin. destruct Hin as [Hin|Hin].
  - rewrite Forall_forall in Hold. apply list_elem_of_In in Hin.
    specialize (Hold row Hin Hkey). specialize (Hclk i Hi). lia.
  - rewrite Forall_forall in Hkeys. apply list_elem_of_In in Hin.
    exact (Hkeys row Hin Hkey).
Qed.

Lemma evicted_selection_shows_placeholder_witness :
  exists ps' k',
    persistedStateReducer sample_locale (steady 300000)
      {| messageRows := [sample_row "1" 0; sample_row "2" 1] |} "newRow"
      (One (event "3" 2 JNull)) 0%nat = Ok (ps', k')
    /\ renderSidebar {| messageRows := [sample_row "1" 0; sample_row "2" 1] |}
         (onRowHighlighted ["1"] initialState) = Extra (event "1" 0 JNull)
    /\ renderSidebar ps' (onRowHighlighted ["1"] initialState) = Placeholder.
Proof.
  eexists _, _. split; [reflexivity|]. split; [reflexivity|].
  apply (evicted_selection_shows_placeholder sample_locale (steady 300000) 300000
           {| messageRows := [sample_row "1" 0; sample_row "2" 1] |} _
           (onRowHighlighted ["1"] initialState) (One (event "3" 2 JNull)) "1" 0%nat 3%nat).
  - reflexivity.
  - reflexivity.
  - intros i _. unfold steady. lia.
  - repeat constructor; cbn; intros; try discriminate; lia.
  - repeat constructor. discriminate.
Defined.

(** ** More on the sampler *)

Lemma filter_implied {A : Type} (p q : A -> bool) (xs : list A) :
  (forall x, p x = true -> q x = true) ->
  List.filter p (List.filter q xs) = List.filter p xs.
Proof.
  intros Himp. induction xs as [|x xs IH]; cbn [List.filter]; [reflexivity|].
  destruct (q x) eqn:Hq; cbn [List.filter].
  - rewrite IH. reflexivity.
  - destruct (p x) eqn:Hp; [|exact IH]. rewrite (Himp x Hp) in Hq. discriminate.
Qed.

Lemma sample_window_inside_retention (now : Z) (row : MessageRow) :
  in_sample_window now row = true -> fresh_at now row = true.
Proof.
  unfold in_sample_window, fresh_at. intros H. apply Z.leb_le in H. apply Z.ltb_lt. lia.
Qed.

(** X7. The sample window lies inside the retention window: under a clock
    that stands still from the append on, the rows that [filterMessages]
    selects right after an append are the matched rows of the whole
    un-evicted sequence (old rows, then new rows); eviction removes nothing
    that the sampler would count. *)
Theorem sample_after_append_ignores_eviction
    (toLocaleString : Z -> string) (clock : nat -> Z) (now : Z)
    (ps : PersistedState) (st : State) (p : Payload) (k : nat) :
  batch_serializable p = true ->
  (forall i, (k <= i)%nat -> clock i = now) ->
  filters_resolve (filters st) = true ->
  exists ps' k' newRows,
    persistedStateReducer toLocaleString clock ps "newRow" p k = Ok (ps', k')
    /\ buildRow toLocaleString p = Ok newRows
    /\ filterMessages clock ps' st k'
       = Ok (matched_rows now (filters st) (messageRows ps ++ newRows),
             (k' + length (messageRows ps'))%nat).
Proof.
  intros Hser Hclk Hres. pose proof (buildRow_spec toLocaleString p) as Hbuild.
  rewrite Hser in Hbuild. destruct Hbuild as (newRows & Hbuild & _).
  rewrite persistedStateReducer_newRow, Hbuild. eexists _, _, newRows.
  split; [reflexivity|]. split; [reflexivity|].
  rewrite (filterMessages_steady clock now); [|intros i Hi; apply Hclk; lia | exact Hres].
  cbn [messageRows]. rewrite (evict_steady clock now) by (intros i Hi; apply Hclk; lia).
  unfold matched_rows. rewrite filter_implied; [reflexivity|].
  intros row Hrow. apply andb_true_iff in Hrow as [Hwin _].
  apply sample_window_inside_retention. exact Hwin.
Qed.

Lemma sample_after_append_ignores_eviction_witness :
  exists ps' k',
    persistedStateReducer sample_locale (steady 300000)
      {| messageRows := [sample_row "a" 0; sample_row "b" 295000] |} "newRow"
      (One (event "c" 299000 JNull)) 0%nat = Ok (ps', k')
    /\ map key (messageRows ps') = ["b"; "c"]
    /\ state_of (filterMessages (steady 300000) ps' initialState k')
       = Ok [sample_row "b" 295000; sample_row "c" 299000].
Proof.
  destruct (sample_after_append_ignores_eviction sample_locale (steady 300000) 300000
              {| messageRows := [sample_row "a" 0; sample_row "b" 295000] |}
              initialState (One (event "c" 299000 JNull)) 0%nat)
    as (ps' & k' & newRows & Hrun & Hbuild & Hsample).
  - reflexivity.
  - intros i _. reflexivity.
  - reflexivity.
  - exists ps', k'. split; [exact Hrun|].
    cbv in Hbuild. inversion Hbuild; subst newRows. rewrite Hsample.
    cbv in Hrun. inversion Hrun. split; reflexivity.
Defined.

Lemma Array_filter_reads {A : Type} (callback : A -> M bool) (xs kept : list A) (k k' : nat) :
  (forall x i b i', callback x i = Ok (b, i') -> i' = S i) ->
  Array_filter callback xs k = Ok (kept, k') ->
  k' = (k + length xs)%nat.
Proof.
  intros Hone. revert kept k k'. induction xs as [|x xs IH]; intros kept k k' H;
    cbn [Array_filter] in H.
  - inversion H. cbn. lia.
  - rewrite bind_run in H. destruct (callback x k) as [[b k1]|e] eqn:Hcb; [|discriminate].
    rewrite bind_run in H.
    destruct (Array_filter callback xs k1) as [[ys k2]|e] eqn:E; [|discriminate].
    inversion H; subst. rewrite (IH _ _ _ E), (Hone _ _ _ _ Hcb). cbn [length]. lia.
Qed.

Lemma filterMessages_callback_reads clock fs row i b i' :
  filterMessages_callback clock fs row i = Ok (b, i') -> i' = S i.
Proof.
  rewrite filterMessages_callback_run.
  destruct (_ <? _); [intros H; inversion H; reflexivity|].
  destruct (_ =? _)%nat; [intros H; inversion H; reflexivity|].
  destruct (first_filter_result fs row); cbn; intros H; inversion H; reflexivity.
Qed.

Lemma filterMessages_any_clock clock ps st k rows k' :
  filterMessages clock ps st k = Ok (rows, k') ->
  sublist rows (messageRows ps) /\ k' = (k + length (messageRows ps))%nat.
Proof.
  intros H. split.
  - exact (Array_filter_sublist _ _ _ _ _ H).
  - apply (Array_filter_reads _ _ _ _ _ (filterMessages_callback_reads clock (filters st)) H).
Qed.

Lemma Qceiling_fifth_mono (n m : Z) :
  n <= m -> Qceiling (n # 5) <= Qceiling (m # 5).
Proof.
  intros Hle. pose proof (Qceiling_fifth n). pose proof (Qceiling_fifth m). lia.
Qed.

Lemma getSizeInBytes_array_at_least_two (vs : list jsval) (b : nat) :
  getSizeInBytes (JArr vs) = Ok b -> (2 <= b)%nat.
Proof.
  unfold getSizeInBytes, JSON_stringify. rewrite SerializeJSONProperty_JArr.
  destruct (SerializeJSONArray vs) as [parts|e]; cbn [rbind]; [|discriminate].
  intros H. inversion H. cbn [TextEncoder_encode_length].
  rewrite !string_length_append. cbn. lia.
Qed.

(** X8. Whatever the clock does, a tick that completes leaves the selected
    key and the filter set as they were, has read the clock exactly twice
    per buffered row (one pass per figure), and publishes a message rate
    between 0 and [ceil (rows / 5)] and a bandwidth of at least 2/5. *)
Theorem tick_frame_and_bounds
    (clock : nat -> Z) (ps : PersistedState) (st st' : State) (k k' : nat) :
  tick clock ps st k = Ok (st', k') ->
  selectedId st' = selectedId st
  /\ filters st' = filters st
  /\ k' = (k + 2 * length (messageRows ps))%nat
  /\ 0 <= messagesPerSecond st' <= Qceiling (Z.of_nat (length (messageRows ps)) # 5)
  /\ Qle (2 # 5) (bandwidthPerSecond st').
Proof.
  unfold tick, getMessagesPerSecond, getBandwidthPerSecond. rewrite !bind_run.
  destruct (filterMessages clock ps st k) as [[rows1 k1]|e] eqn:Hfirst; [|discriminate].
  unfold ret at 1. rewrite !bind_run.
  destruct (filterMessages clock ps st k1) as [[rows2 k2]|e] eqn:Hsecond; [|discriminate].
  rewrite bind_run. unfold lift.
  destruct (getSizeInBytes (js_of_rows rows2)) as [bytes|e] eqn:Hsize; [|discriminate].
  unfold ret. intros H. inversion H; subst. cbn [selectedId filters messagesPerSecond
                                                  bandwidthPerSecond].
  destruct (filterMessages_any_clock _ _ _ _ _ _ Hfirst) as [Hsub1 ->].
  destruct (filterMessages_any_clock _ _ _ _ _ _ Hsecond) as [_ ->].
  apply getSizeInBytes_array_at_least_two in Hsize. apply sublist_length in Hsub1.
  repeat split; try lia.
  - pose proof (Qceiling_fifth (Z.of_nat (length rows1))). unfold Math_ceil. lia.
  - apply Qceiling_fifth_mono. lia.
  - unfold Qle. cbn [Qnum Qden]. lia.
Qed.

Lemma tick_frame_and_bounds_witness :
  exists st' k',
    tick spanning_clock busy_buffer (onRowHighlighted ["c"] initialState) 0%nat = Ok (st', k')
    /\ selectedId st' = Some "c" /\ k' = 24%nat
    /\ 0 <= messagesPerSecond st' <= 3.
Proof.
  eexists _, _. split; [reflexivity|].
  destruct (tick_frame_and_bounds spanning_clock busy_buffer
              (onRowHighlighted ["c"] initialState) _ 0%nat _ eq_refl)
    as (Hsel & _ & Hreads & Hrate & _).
  split; [exact Hsel|]. split; [exact Hreads | exact Hrate].
Defined.

(** X9. A first filter on an unknown column is an error only when the
    buffer holds a row inside the sample window: under a clock that stands
    still, [filterMessages] then throws a TypeError, and otherwise it
    returns the empty selection. *)
Theorem unknown_filter_throws_iff_row_in_window
    (clock : nat -> Z) (now : Z) (ps : PersistedState) (st : State) (k : nat) :
  (forall i, (k <= i < k + length (messageRows ps))%nat -> clock i = now) ->
  filters_resolve (filters st) = false ->
  filterMessages clock ps st k
  = if existsb (in_sample_window now) (messageRows ps)
    then Throw TypeError
    else Ok ([], (k + length (messageRows ps))%nat).
Proof.
  intros Hclk Hres. unfold filterMessages.
  destruct (filters st) as [|filter rest] eqn:Hfs; [discriminate|].
  cbn [filters_resolve] in Hres. revert k Hclk.
  induction (messageRows ps) as [|row rows IH]; intros k Hclk; cbn [Array_filter existsb length].
  - unfold ret. do 2 f_equal. lia.
  - rewrite bind_run, filterMessages_callback_run, (Hclk k) by (cbn [length]; lia).
    unfold in_sample_window.
    destruct (Z.ltb_spec (5 * 1000) (now - timestamp row)) as [Hout|Hin];
      destruct (Z.leb_spec (now - timestamp row) (5 * 1000)) as [Hin'|Hout']; try lia.
    + cbn [orb]. rewrite bind_run, IH by (intros i Hi; apply Hclk; cbn [length]; lia).
      destruct (existsb _ rows); [reflexivity|]. unfold ret. do 2 f_equal. lia.
    + cbn [length Nat.eqb first_filter_result]. unfold filter_equality.
      rewrite (get_column_unresolved _ _ Hres). reflexivity.
Qed.

Lemma unknown_filter_throws_iff_row_in_window_witness :
  filterMessages (steady 10000) {| messageRows := [sample_row "a" 0; sample_row "b" 4999] |}
    (onFilterChange [by_unknown "app"] initialState) 0%nat = Ok ([], 2%nat)
  /\ filterMessages (steady 10000) busy_buffer
       (onFilterChange [by_unknown "app"] initialState) 0%nat = Throw TypeError.
Proof.
  split.
  - apply (unknown_filter_throws_iff_row_in_window (steady 10000) 10000
             {| messageRows := [sample_row "a" 0; sample_row "b" 4999] |}
             (onFilterChange [by_unknown "app"] initialState) 0%nat);
      [intros i _; reflexivity | reflexivity].
  - apply (unknown_filter_throws_iff_row_in_window (steady 10000) 10000 busy_buffer
             (onFilterChange [by_unknown "app"] initialState) 0%nat);
      [intros i _; reflexivity | reflexivity].
Defined.

(** ** Header texts *)

Lemma Qceiling_fifth_twice (n : Z) :
  Qceiling (Qceiling (n # 5) # 5) = Qceiling (n # 25).
Proof.
  unfold Qceiling, Qfloor, Qopp. cbn [Qnum Qden].
  rewrite Z.opp_involutive, Z.div_div by lia. reflexivity.
Qed.

(** X10. [render] divides by five once more: after a tick (clock standing
    still, first filter on a known column, rows as the reducer builds
    them) the header reads [ceil (n / 25)] followed by [" msg/s"], where
    [n] is the number of matched rows of the 5-second window. *)
Theorem header_rate_is_ceiling_of_twenty_fifth
    (clock : nat -> Z) (now : Z) (ps : PersistedState) (st : State) (k : nat) :
  (forall i, (k <= i < k + 2 * length (messageRows ps))%nat -> clock i = now) ->
  filters_resolve (filters st) = true ->
  forallb row_serializable (messageRows ps) = true ->
  exists (st' : State) (k' : nat),
    tick clock ps st k = Ok (st', k')
    /\ mshPerSecText st'
       = Number_toString (Qceiling (matched_count now (filters st) (messageRows ps) # 25))
         ++ " msg/s".
Proof.
  intros Hclk Hres Hser.
  destruct (tick_steady clock now ps st k Hclk Hres Hser) as (text & _ & _ & _ & _ & Htick).
  eexists _, _. split; [exact Htick|].
  unfold mshPerSecText, Math_ceil. cbn [messagesPerSecond].
  rewrite Qceiling_fifth_twice. reflexivity.
Qed.

Lemma header_rate_is_ceiling_of_twenty_fifth_witness :
  exists (st' : State) (k' : nat),
    tick (steady 10000) busy_buffer initialState 0%nat = Ok (st', k')
    /\ messagesPerSecond st' = 2
    /\ mshPerSecText st' = "1 msg/s".
Proof.
  destruct (header_rate_is_ceiling_of_twenty_fifth (steady 10000) 10000 busy_buffer
              initialState 0%nat)
    as (st' & k' & Htick & Htext).
  - intros i _. reflexivity.
  - reflexivity.
  - reflexivity.
  - exists st', k'. split; [exact Htick|]. split; [|exact Htext].
    cbv in Htick. inversion Htick. reflexivity.
Defined.

(** X11. The two header texts read ["0 msg/s"] and ["0 B/s"] on the
    initial state and right after every filter change, whatever the buffer
    holds; after a tick that completes, [formatBytes] never takes its
    ["0 B/s"] branch, since the published bandwidth is at least 2/5. *)
Theorem header_texts_zero_until_tick
    (formatPositive : Q -> Z -> string) (fs : list Filter) (st : State) :
  mshPerSecText initialState = "0 msg/s"
  /\ bandwidthPerSecText formatPositive initialState = "0 B/s"
  /\ mshPerSecText (onFilterChange fs st) = "0 msg/s"
  /\ bandwidthPerSecText formatPositive (onFilterChange fs st) = "0 B/s"
  /\ (forall clock ps st' k k',
        tick clock ps st k = Ok (st', k') ->
        bandwidthPerSecText formatPositive st'
        = formatPositive (bandwidthPerSecond st') 2).
Proof.
  repeat split. intros clock ps st' k k' Htick.
  unfold tick, getMessagesPerSecond, getBandwidthPerSecond in Htick. rewrite !bind_run in Htick.
  destruct (filterMessages clock ps st k) as [[rows1 k1]|e]; [|discriminate].
  unfold ret at 1 in Htick. rewrite !bind_run in Htick.
  destruct (filterMessages clock ps st k1) as [[rows2 k2]|e]; [|discriminate].
  rewrite bind_run in Htick. unfold lift in Htick.
  destruct (getSizeInBytes (js_of_rows rows2)) as [bytes|e] eqn:Hsize; [|discriminate].
  unfold ret in Htick. inversion Htick; subst.
  apply getSizeInBytes_array_at_least_two in Hsize.
  unfold bandwidthPerSecText, formatBytes. cbn [bandwidthPerSecond].
  unfold Qle_bool. cbn [Qnum Qden].
  destruct (Z.leb_spec (Z.of_nat bytes * 1) (0 * 5)); [lia | reflexivity].
Qed.

Lemma header_texts_zero_until_tick_witness :
  bandwidthPerSecText (fun _ _ => "some B/s")
    {| selectedId := None; filters := []; messagesPerSecond := 0;
       bandwidthPerSecond := 2 # 5 |}
  = "some B/s".
Proof.
  apply (header_texts_zero_until_tick (fun _ _ => "some B/s") [] initialState)
    with (clock := steady 0) (ps := defaultPersistedState) (k := 0%nat) (k' := 0%nat).
  reflexivity.
Defined.

(** ** Sizes *)

Lemma join_comma_length (parts : list string) :
  String.length (join_comma parts)
  = (list_sum (map String.length parts) + (length parts - 1))%nat.
Proof.
  induction parts as [|p [|q parts] IH]; [reflexivity | cbn; lia |].
  change (join_comma (p :: q :: parts)) with (p ++ "," ++ join_comma (q :: parts)).
  rewrite !string_length_append, IH. cbn. lia.
Qed.

Lemma SerializeJSONProperty_JObj_Some (props : list (string * jsval)) (o : option string) :
  SerializeJSONProperty (JObj props) = Ok o -> exists text, o = Some text.
Proof.
  rewrite SerializeJSONProperty_JObj.
  destruct (SerializeJSONObject props); cbn [rbind]; [|discriminate].
  intros H. inversion H. eexists. reflexivity.
Qed.

Lemma serializable_js_of_Columns (cols : Columns) : serializable (js_of_Columns cols) = true.
Proof.
  unfold js_of_Columns. cbn [serializable forallb]. rewrite !serializable_js_of_Cell.
  reflexivity.
Qed.

Lemma serializable_js_of_DataRow (r : DataRow) :
  serializable (js_of_DataRow r) = serializable (args r).
Proof.
  unfold js_of_DataRow. cbn [serializable forallb].
  destruct (module r), (method r); cbn; destruct (serializable (args r)); reflexivity.
Qed.

Lemma quote_chars_length (s : string) :
  (String.length s <= String.length (quote_chars s))%nat.
Proof.
  induction s as [|c s IH]; [cbn; lia|].
  cbn [quote_chars]. rewrite string_length_append.
  assert (1 <= String.length (quote_char c))%nat; [|cbn [String.length]; lia].
  unfold quote_char. repeat (destruct (_ =? _)%N; [cbn; lia|]).
  destruct (_ <? _)%N; cbn; lia.
Qed.

(** The text of a row contains the text of its payload. *)
Lemma row_text_contains_payload_text (row : MessageRow) :
  row_serializable row = true ->
  exists text ptext,
    JSON_stringify (js_of_MessageRow row) = Ok (Some text)
    /\ JSON_stringify (js_of_DataRow (payload row)) = Ok (Some ptext)
    /\ (String.length ptext < String.length text)%nat.
Proof.
  intros Hrow. unfold row_serializable in Hrow.
  pose proof (JSON_stringify_serializable (js_of_Columns (columns row))) as Hc.
  rewrite serializable_js_of_Columns in Hc. destruct Hc as [oc Hc].
  pose proof (JSON_stringify_serializable (js_of_DataRow (payload row))) as Hp.
  rewrite serializable_js_of_DataRow, Hrow in Hp. destruct Hp as [op Hp].
  unfold JSON_stringify in *.
  destruct (SerializeJSONProperty_JObj_Some _ _ Hc) as [ctext ->].
  destruct (SerializeJSONProperty_JObj_Some _ _ Hp) as [ptext ->].
  unfold js_of_MessageRow. rewrite SerializeJSONProperty_JObj.
  cbn [SerializeJSONObject]. rewrite Hc, Hp.
  eexists _, ptext. split; [reflexivity|]. split; [reflexivity|].
  cbn [join_comma]. rewrite !string_length_append. cbn [String.length]. lia.
Qed.

(** X12. What [getSizeInBytes] measures. It returns exactly on the values
    that [JSON.stringify] accepts and throws a TypeError on the others; a
    string is measured raw, two bytes or more below its JSON text, and
    [undefined] measures 0. *)
Theorem getSizeInBytes_returns_iff_serializable (v : jsval) :
  (if serializable v
   then exists b, getSizeInBytes v = Ok b
   else getSizeInBytes v = Throw TypeError)
  /\ getSizeInBytes JUndefined = Ok 0%nat
  /\ (forall s text,
        getSizeInBytes (JStr s) = Ok (String.length s)
        /\ (JSON_stringify (JStr s) = Ok (Some text) ->
            (String.length s + 2 <= String.length text)%nat)).
Proof.
  split; [|split; [reflexivity|]].
  - pose proof (JSON_stringify_serializable v) as Hv.
    destruct (serializable v) eqn:Hs.
    + destruct Hv as [o Ho].
      destruct v; unfold getSizeInBytes;
        first [eexists; reflexivity | rewrite Ho; eexists; reflexivity].
    + destruct v; try discriminate Hs; unfold getSizeInBytes; rewrite Hv; reflexivity.
  - intros s text. split; [reflexivity|]. cbn. intros H. inversion H.
    unfold QuoteJSONString. cbn [String.length]. rewrite string_length_append.
    pose proof (quote_chars_length s). cbn [String.length]. lia.
Qed.

Lemma rows_parts (rows : list MessageRow) :
  forallb row_serializable rows = true ->
  exists parts ptexts,
    SerializeJSONArray (map js_of_MessageRow rows) = Ok parts
    /\ Forall2 (fun row part => JSON_stringify (js_of_MessageRow row) = Ok (Some part))
         rows parts
    /\ Forall2 (fun row ptext =>
                  JSON_stringify (js_of_DataRow (payload row)) = Ok (Some ptext))
         rows ptexts
    /\ (list_sum (map String.length ptexts) + length rows
        <= list_sum (map String.length parts))%nat.
Proof.
  unfold SerializeJSONArray. induction rows as [|row rows IH]; intros Hser.
  - exists [], []. repeat split; constructor.
  - cbn [forallb] in Hser. apply andb_true_iff in Hser as [Hrow Hrest].
    destruct (row_text_contains_payload_text row Hrow) as (text & ptext & Ht & Hp & Hlt).
    destruct (IH Hrest) as (parts & ptexts & Hparts & Hall & Hpay & Hle).
    exists (text :: parts), (ptext :: ptexts). cbn [map Array_map].
    unfold JSON_stringify in Ht. rewrite Ht. cbn [rbind]. rewrite Hparts. cbn [rbind].
    split; [reflexivity|]. split; [constructor; assumption|].
    split; [constructor; assumption|].
    cbn [length map]. unfold list_sum in *. cbn [fold_right]. lia.
Qed.

(** X13. The size of the array of rows adds up: for rows as the reducer
    builds them, [getSizeInBytes] of the array is the two brackets, the
    sizes of the single rows, and one comma between neighbours. It exceeds
    the total size of the rows' payloads by more than two bytes per row. *)
Theorem rows_array_size_adds_up (rows : list MessageRow) :
  forallb row_serializable rows = true ->
  exists (sizes : list nat) (payload_total : nat),
    Forall2 (fun row b => getSizeInBytes (js_of_MessageRow row) = Ok b) rows sizes
    /\ getSizeInBytes (js_of_rows rows)
       = Ok (2 + list_sum sizes + (length rows - 1))%nat
    /\ payloads_size rows = Ok payload_total
    /\ (payload_total + length rows <= list_sum sizes)%nat.
Proof.
  intros Hser. destruct (rows_parts rows Hser) as (parts & ptexts & Hparts & Hall & Hpay & Hle).
  exists (map String.length parts), (list_sum (map String.length ptexts)).
  assert (Hlen : length parts = length rows) by (symmetry; exact (Forall2_length _ _ _ Hall)).
  split; [|split; [|split; [|exact Hle]]].
  - clear -Hall. induction Hall as [|row part rows parts Hrow _ IH]; cbn [map]; constructor;
      [|exact IH].
    unfold js_of_MessageRow in *. unfold getSizeInBytes. rewrite Hrow. reflexivity.
  - unfold getSizeInBytes, js_of_rows, JSON_stringify.
    rewrite SerializeJSONProperty_JArr, Hparts. cbn [rbind TextEncoder_encode_length].
    rewrite !string_length_append, join_comma_length, Hlen. cbn [String.length].
    f_equal. lia.
  - clear -Hpay. induction Hpay as [|row ptext rows ptexts Hrow _ IH]; [reflexivity|].
    cbn [payloads_size map list_sum foldr]. unfold js_of_DataRow in *.
    unfold getSizeInBytes. rewrite Hrow. cbn [rbind]. rewrite IH. reflexivity.
Qed.

Lemma rows_array_size_adds_up_witness :
  getSizeInBytes (js_of_rows [sample_row "1" 0; sample_row "2" 7]) = Ok 777%nat
  /\ getSizeInBytes (js_of_MessageRow (sample_row "1" 0)) = Ok 387%nat
  /\ payloads_size [sample_row "1" 0; sample_row "2" 7] = Ok 172%nat.
Proof.
  destruct (rows_array_size_adds_up [sample_row "1" 0; sample_row "2" 7] eq_refl)
    as (sizes & total & Hsizes & Harray & Hpay & _).
  split; [|split; reflexivity].
  rewrite Harray.
  inversion Hsizes as [|? ? ? ? H1 Hrest]; subst.
  inversion Hrest as [|? ? ? ? H2 Hnil]; subst. inversion Hnil; subst.
  vm_compute in H1. vm_compute in H2. inversion H1. inversion H2. reflexivity.
Defined.
